(** * LLM Tuna: the evaluation, training and dataset views

    A shallow embedding of the React components of the front end
    ([ModelComparison], [TrainingProgress], [MetricsCard], the datasets page,
    [DatasetUpload] and the evaluation page) together with the JavaScript
    primitives they call.  A component is a state record, its event handlers
    are state transformers that also return the requests they send, and its
    JSX is a function from the state to a tree of semantic view elements.

    Conventions.
    - A JavaScript [number] that carries a measurement (latency, cost rate,
      improvement percentage, token count, loss) is a binary64 [float], with
      the IEEE comparisons and arithmetic of the language.  Indices and ids,
      which the code only ever builds from integers, are [Z].
    - A JavaScript string is a [string]; one character stands for one code
      unit below 256.
    - An event handler runs to completion before the next event is handled.
      The rating of [ModelComparison], whose effect depends on what happens
      while its request is under way, is also given in two steps, the click
      and the answer.
    - The server is outside the front end.  Where a property speaks about the
      server, its behaviour is written down from the specification in module
      [Backend] and marked as such. *)

From Stdlib Require Import ZArith Floats String Ascii List Bool Lia.
From Stdlib Require DecimalString DecimalN.
From stdpp Require Import gmap strings list.

Local Open Scope Z_scope.

(** ** JavaScript primitives *)

Module Js.

(** *** Strings *)

(** [!!s]: a string is truthy unless it is empty. *)
Definition truthy_string (s : string) : bool :=
  match s with
  | EmptyString => false
  | String _ _ => true
  end.

(** [o || d] where [o] is a string, [null] or [undefined]. *)
Definition or_string (o : option string) (d : string) : string :=
  match o with
  | Some s => if truthy_string s then s else d
  | None => d
  end.

(** [s && <block>] for a string, [null] or [undefined]: the block is
    rendered for a non-empty string only. *)
Definition when_truthy (s : option string) : option string :=
  match s with
  | Some (String c rest) => Some (String c rest)
  | _ => None
  end.

(** [s.endsWith(suffix)]. *)
Definition endsWith (s suffix : string) : bool :=
  let n := String.length s in
  let k := String.length suffix in
  (k <=? n)%nat && String.eqb (String.substring (n - k) k s) suffix.

(** [hay.includes(needle)]: some suffix of [hay] starts with [needle]. *)
Fixpoint includes (hay needle : string) : bool :=
  String.prefix needle hay ||
  match hay with
  | EmptyString => false
  | String _ rest => includes rest needle
  end.

(** White space in the sense of [String.prototype.trim], for code units
    below 256: TAB, LF, VT, FF, CR, SPACE and NBSP. *)
Definition is_white (c : ascii) : bool :=
  let n := nat_of_ascii c in
  ((9 <=? n) && (n <=? 13) || (n =? 32) || (n =? 160))%nat.

(** [s.trim()] is the empty string. *)
Fixpoint blank (s : string) : bool :=
  match s with
  | EmptyString => true
  | String c rest => is_white c && blank rest
  end.

(** [text.split('\n')], with the piece being read kept in [cur]
    (reversed). The result always has at least one piece. *)
Fixpoint split_go (cur : list ascii) (s : string) : list string :=
  match s with
  | EmptyString => [string_of_list_ascii (rev cur)]
  | String c rest =>
      if Ascii.eqb c "010"%char
      then string_of_list_ascii (rev cur) :: split_go [] rest
      else split_go (c :: cur) rest
  end.

Definition split_newline (text : string) : list string := split_go [] text.

(** [pieces.join('\n')], the inverse of [split('\n')]. *)
Fixpoint join_newline (pieces : list string) : string :=
  match pieces with
  | [] => EmptyString
  | [piece] => piece
  | piece :: rest => String.append piece (String "010" (join_newline rest))
  end.

(** *** Numbers *)

(** [!!x] for a number: [0], [-0] and [NaN] are falsy. *)
Definition truthy_number (x : float) : bool :=
  negb (PrimFloat.eqb x 0%float || PrimFloat.is_nan x).

(** [o || 0] where [o] is a number or [undefined]. *)
Definition or_zero (o : option float) : float :=
  match o with
  | Some x => if truthy_number x then x else 0%float
  | None => 0%float
  end.

(** [x > 0]. *)
Definition gt_zero (x : float) : bool := PrimFloat.ltb 0%float x.

(** *** [Number.prototype.toFixed]

    A finite number is [m * 2^e] with [m] a positive integer.  [toFixed(f)]
    picks the integer [n] for which [n / 10^f] is closest to the absolute
    value, the larger one on a tie, and prints it with [f] digits after the
    point.  From [10^21] on the language prints the number as
    [Number::toString] does, in exponent notation with the fewest digits that
    still read back as the same number. *)

Definition digits (n : Z) : string :=
  DecimalString.NilZero.string_of_uint (N.to_uint (Z.to_N n)).

Fixpoint zeros (k : nat) : string :=
  match k with
  | O => EmptyString
  | S k' => String "0" (zeros k')
  end.

Definition fixed_digits (f : nat) (n : Z) : string :=
  let m := digits n in
  match f with
  | O => m
  | S _ =>
      let m := String.append (zeros (S f - String.length m)) m in
      let k := String.length m in
      String.append (String.substring 0 (k - f) m)
        (String "." (String.substring (k - f) f m))
  end.

Definition round_scaled (f : nat) (m e : Z) : Z :=
  let s := m * 10 ^ Z.of_nat f in
  if 0 <=? e then s * 2 ^ e else (2 * s + 2 ^ (- e)) / 2 ^ (1 - e).

Fixpoint drop_zeros (l : list ascii) : list ascii :=
  match l with
  | c :: rest => if Ascii.eqb c "0"%char then drop_zeros rest else l
  | [] => []
  end.

Definition strip_trailing_zeros (s : string) : string :=
  string_of_list_ascii (rev (drop_zeros (rev (list_ascii_of_string s)))).

(** The decimal with the fewest significant digits inside the rounding
    interval of [m * 2^e] (for [e >= 2]), the closest one when several have
    that many digits. *)
Fixpoint shortest_from (fuel : nat) (k : Z) (N lo hi : Z) (closed : bool) (nd : Z) : Z :=
  match fuel with
  | O => N
  | S fuel' =>
      let p := 10 ^ (nd - k) in
      let v1 := N / p * p in
      let v2 := v1 + p in
      let inside v :=
        if closed then (lo <=? v) && (v <=? hi) else (lo <? v) && (v <? hi) in
      match inside v1, inside v2 with
      | true, true => if N - v1 <=? v2 - N then v1 else v2
      | true, false => v1
      | false, true => v2
      | false, false => shortest_from fuel' (k + 1) N lo hi closed nd
      end
  end.

Definition to_string_big (m e : Z) : string :=
  let N := m * 2 ^ e in
  let lo := N - (if m =? 2 ^ 52 then 2 ^ (e - 2) else 2 ^ (e - 1)) in
  let hi := N + 2 ^ (e - 1) in
  let nd := Z.of_nat (String.length (digits N)) in
  let v := shortest_from 17 1 N lo hi (Z.even m) nd in
  let ds := strip_trailing_zeros (digits v) in
  let ex := digits (Z.of_nat (String.length (digits v)) - 1) in
  match ds with
  | String d EmptyString => String d (String.append "e+"%string ex)
  | String d rest => String d (String "." (String.append rest (String.append "e+"%string ex)))
  | EmptyString => EmptyString
  end.

Definition toFixed (f : nat) (x : float) : string :=
  match Prim2SF x with
  | S754_nan => "NaN"%string
  | S754_infinity s => if s then "-Infinity"%string else "Infinity"%string
  | S754_zero _ => fixed_digits f 0
  | S754_finite s m e =>
      let m := Z.pos m in
      String.append (if s then "-"%string else EmptyString)
        (if (0 <=? e) && (10 ^ 21 <=? m * 2 ^ e)
         then to_string_big m e
         else fixed_digits f (round_scaled f m e))
  end.

(** *** What "rounded to [f] decimals" means

    These predicates state the rounding without reference to [toFixed]. *)





End Js.

(** ** Results of calls that can fail *)

Inductive result (E A : Type) : Type :=
| Ok (a : A)
| Err (e : E).

Arguments Ok {E A} a.
Arguments Err {E A} e.

(** [xs[i]] for an integer [i]: [undefined] outside [0, xs.length). *)
Definition index_Z {A} (xs : list A) (i : Z) : option A :=
  if i <? 0 then None else xs !! Z.to_nat i.

(** The model a rating prefers (['base' | 'finetuned']). *)
Inductive preferred := base | finetuned.

#[global] Instance preferred_eq_dec : EqDecision preferred.
Proof. solve_decision. Defined.

(** ** What a failed axios call carries *)

Module Http.

(** The response of the server to a rejected request: its status code and
    the [detail] field of its body, when the body has one.  The server
    (FastAPI) sends [detail] as a string with the errors it raises itself. *)
Record Response := {
  status : Z;
  detail : option string;
}.

(** The error thrown by [axios.post]; [response] is [undefined] when the
    server was never reached. *)
Record error := {
  response : option Response;
}.

(** [err.response?.status]. *)
Definition status_of (err : error) : option Z :=
  status <$> response err.

(** [err.response?.data?.detail]. *)
Definition detail_of (err : error) : option string :=
  response err ≫= detail.

End Http.

(** ** The server, as the specification describes it *)

Module Backend.

(** Modelled from the spec: the validation status of a dataset
    ("pending|valid|invalid"); the server code that keeps it is missing from
    the sources. *)
Inductive validation_status := pending | valid | invalid.

(** Modelled from the spec: the two failures of the error taxonomy that the
    operations below raise; the server code that raises them is missing
    from the sources. *)
Inductive error :=
| PreconditionError
| RangeError.

(** Modelled from the spec: the dataset record kept by the server, of which
    the front end has no source: its ordered examples and its validation
    status. *)
Record Dataset (A : Type) := {
  examples : list A;
  status : validation_status;
}.

Arguments examples {A} _.
Arguments status {A} _.

(** Modelled from the spec: [startTraining] of the training job engine,
    which is server code missing from the sources.  It "fails with
    PreconditionError if the dataset is not valid"; otherwise a job is
    queued under the next free identity. *)
Definition startTraining {A} (d : Dataset A) (next_job : Z) : result error Z :=
  match status d with
  | valid => Ok next_job
  | pending | invalid => Err PreconditionError
  end.

(** Modelled from the spec: the last [k] examples of a dataset, in their
    original order; the evaluation engine that selects the test split is
    server code missing from the sources. *)
Definition last_examples {A} (k : nat) (examples : list A) : list A :=
  drop (length examples - k) examples.

(** Modelled from the spec: the selection rule of the evaluation engine
    (server code missing from the sources), "the last testSize (or, if the
    dataset is shorter, the last 20% of the dataset) examples of the owning
    dataset's example sequence, in original order".  The rule is a relation
    between the dataset and the split: no rounding of the 20 percent is
    chosen, any whole number of examples between [n / 5] rounded down and
    rounded up satisfies it. *)
Definition split_rule {A} (testSize : nat) (examples split : list A) : Prop :=
  if (length examples <? testSize)%nat
  then exists k, split = last_examples k examples /\
                 (5 * k <= length examples + 4)%nat /\
                 (length examples <= 5 * k + 4)%nat
  else split = last_examples testSize examples.

(** Modelled from the spec: the invariant on the number of test results,
    "len(test_results) == min(testSize, len(dataset examples))", of the same
    missing engine. *)
Definition count_rule {A} (testSize : nat) (examples split : list A) : Prop :=
  length split = Nat.min testSize (length examples).

(** Modelled from the spec: the evaluation record kept by the server; [R] is
    the type of one test result and [M] the type of the aggregated metrics,
    neither of which [rate] looks into. *)
Record Evaluation (R M : Type) := {
  test_results : list R;
  metrics : M;
  preferences : gmap Z preferred;
}.

Arguments test_results {R M} _.
Arguments metrics {R M} _.
Arguments preferences {R M} _.

(** Modelled from the spec: [rate] of the evaluation engine, server code
    missing from the sources: an "idempotent upsert into the Evaluation's
    preference mapping; fails with a RangeError if exampleIndex is outside
    [0, len(test_results)); does not alter Metrics". *)
Definition rate {R M} (ev : Evaluation R M) (exampleIndex : Z) (p : preferred)
  : result error (Evaluation R M) :=
  if (0 <=? exampleIndex) && (exampleIndex <? Z.of_nat (length (test_results ev)))
  then Ok {| test_results := test_results ev;
             metrics := metrics ev;
             preferences := <[exampleIndex := p]> (preferences ev) |}
  else Err RangeError.

End Backend.

(** ** The evaluation page ([app/evaluation/[id]/page.tsx]) *)

Module EvaluationPage.

Record state := {
  evaluationId : option Z;
  loading : bool;
  error : option string;
}.

Definition init : state :=
  {| evaluationId := None; loading := true; error := None |}.

(** The body of the POST to [/api/evaluation/run]. *)
Record run_request := {
  training_job_id : Z;
  test_size : Z;
}.

Definition not_completed_message : string :=
  "Training job is not completed yet. Please wait for training to finish.".

Definition generic_message : string := "Failed to start evaluation".

(** The [catch] branch of [startEvaluation]: the message put in [error]. *)
Definition error_message (err : Http.error) : string :=
  if bool_decide (Http.status_of err = Some 400)
     && from_option (fun d => Js.includes d "not completed") false (Http.detail_of err)
  then not_completed_message
  else Js.or_string (Http.detail_of err) generic_message.

(** [startEvaluation]: the request sent for the job of the page, and the
    state once the answer [answer] of the server has been handled. *)
Definition startEvaluation_request (trainingJobId : Z) : run_request :=
  {| training_job_id := trainingJobId; test_size := 50 |}.

Definition startEvaluation (answer : result Http.error Z) (st : state) : state :=
  match answer with
  | Ok id =>
      {| evaluationId := Some id; loading := false; error := error st |}
  | Err err =>
      {| evaluationId := evaluationId st; loading := false;
         error := Some (error_message err) |}
  end.

Inductive view :=
| Starting
| ErrorView (message : string)
| Comparison (evaluationId : Z)
| NoEvaluation.

(** The [main] element: [loading ? ... : error ? ... : evaluationId ? ...].
    An empty [error] and an [evaluationId] of [0] are falsy. *)
Definition render (st : state) : view :=
  if loading st then Starting
  else match error st with
       | Some (String c m) => ErrorView (String c m)
       | _ =>
           match evaluationId st with
           | Some id => if id =? 0 then NoEvaluation else Comparison id
           | None => NoEvaluation
           end
       end.

End EvaluationPage.

(** ** The comparison view ([components/ModelComparison.tsx]) *)

Module ModelComparison.

Record TestExample := {
  prompt : string;
  base_output : string;
  finetuned_output : string;
  base_latency_ms : float;
  finetuned_latency_ms : float;
  base_tokens : option float;
  finetuned_tokens : option float;
}.

Record ModelMetrics := {
  avg_latency_ms : float;
  avg_length : float;
  cost_per_1m_tokens : float;
}.

Record Improvements := {
  latency_improvement : float;
  cost_improvement : float;
}.

Record Metrics := {
  base_model : ModelMetrics;
  finetuned_model : ModelMetrics;
  improvements : Improvements;
}.

(** [test_results] and [metrics] are read behind the guards
    [!evaluation.test_results] and [metrics &&], so both may be missing in
    what the server sends. *)
Record Evaluation := {
  id : Z;
  training_job_id : Z;
  test_results : option (list TestExample);
  metrics : option Metrics;
  created_at : string;
}.

Record state := {
  evaluation : option Evaluation;
  currentIndex : Z;
  loading : bool;
  rating : gmap Z preferred;
}.

Definition init : state :=
  {| evaluation := None; currentIndex := 0; loading := true; rating := ∅ |}.

(** [evaluation.test_results.length], [0] while there is no list. *)
Definition results (st : state) : list TestExample :=
  default [] (evaluation st ≫= test_results).

Definition count (st : state) : Z := Z.of_nat (length (results st)).

(** *** Handlers *)

(** [fetchEvaluation]: [answer] is the evaluation the server returned, or
    [None] when the GET failed. *)
Definition fetchEvaluation (answer : option Evaluation) (st : state) : state :=
  {| evaluation := match answer with Some e => Some e | None => evaluation st end;
     currentIndex := currentIndex st;
     loading := false;
     rating := rating st |}.

(** The body of the POST to [/api/evaluation/{id}/rate]. *)
Record rate_request := {
  evaluation_id : Z;
  example_index : Z;
  preferred_model : preferred;
}.

(** [handleRating]: nothing is sent without an evaluation; otherwise the
    rating of the current example is posted and, when the server accepts it
    ([accepts]), recorded in [rating]. *)
Definition handleRating (evaluationId : Z) (p : preferred)
    (accepts : rate_request -> bool) (st : state) : state * list rate_request :=
  match evaluation st with
  | None => (st, [])
  | Some _ =>
      let rq := {| evaluation_id := evaluationId;
                   example_index := currentIndex st;
                   preferred_model := p |} in
      if accepts rq
      then ({| evaluation := evaluation st;
               currentIndex := currentIndex st;
               loading := loading st;
               rating := <[currentIndex st := p]> (rating st) |}, [rq])
      else (st, [rq])
  end.

Definition setCurrentIndex (i : Z) (st : state) : state :=
  {| evaluation := evaluation st;
     currentIndex := i;
     loading := loading st;
     rating := rating st |}.

(** The [onClick] of the Previous and Next buttons. *)
Definition previous (st : state) : state :=
  setCurrentIndex (Z.max 0 (currentIndex st - 1)) st.

Definition next (st : state) : state :=
  setCurrentIndex (Z.min (count st - 1) (currentIndex st + 1)) st.

(** *** The rendered view *)

Inductive badge :=
| Faster (percent : float)
| Cheaper (percent : float).

(** One row of the summary table: the base cell, the fine-tuned cell and the
    badge that may follow it. *)
Record row := {
  label : string;
  base_cell : float;
  finetuned_cell : float;
  improvement_badge : option badge;
}.

Definition summary (m : Metrics) : list row :=
  [ {| label := "Avg Latency";
       base_cell := avg_latency_ms (base_model m);
       finetuned_cell := avg_latency_ms (finetuned_model m);
       improvement_badge :=
         if Js.gt_zero (latency_improvement (improvements m))
         then Some (Faster (latency_improvement (improvements m)))
         else None |};
    {| label := "Cost/1M tokens";
       base_cell := cost_per_1m_tokens (base_model m);
       finetuned_cell := cost_per_1m_tokens (finetuned_model m);
       improvement_badge :=
         if Js.gt_zero (cost_improvement (improvements m))
         then Some (Cheaper (cost_improvement (improvements m)))
         else None |};
    {| label := "Avg Length";
       base_cell := avg_length (base_model m);
       finetuned_cell := avg_length (finetuned_model m);
       improvement_badge := None |} ].

(** The cost line of a panel:
    [((rate || 0) / 1000000 * (tokens || 0)).toFixed(4)], where [rate] is
    [metrics?.<model>.cost_per_1m_tokens]. *)
Definition cost (rate tokens : option float) : string :=
  Js.toFixed 4 (Js.or_zero rate / 1000000 * Js.or_zero tokens)%float.

Record panel := {
  highlighted : bool;
  output : string;
  latency : float;
  cost_line : string;
}.

Definition base_panel (st : state) (m : option Metrics) (ex : TestExample) : panel :=
  {| highlighted := bool_decide (rating st !! currentIndex st = Some base);
     output := base_output ex;
     latency := base_latency_ms ex;
     cost_line := cost (cost_per_1m_tokens <$> (base_model <$> m)) (base_tokens ex) |}.

Definition finetuned_panel (st : state) (m : option Metrics) (ex : TestExample) : panel :=
  {| highlighted := bool_decide (rating st !! currentIndex st = Some finetuned);
     output := finetuned_output ex;
     latency := finetuned_latency_ms ex;
     cost_line :=
       cost (cost_per_1m_tokens <$> (finetuned_model <$> m)) (finetuned_tokens ex) |}.

(** The navigation bar: "Example [shown] of [total]" between the two
    buttons. *)
Record navigation := {
  previous_disabled : bool;
  shown : Z;
  total : Z;
  next_disabled : bool;
}.

Definition navigation_of (st : state) : navigation :=
  {| previous_disabled := currentIndex st =? 0;
     shown := currentIndex st + 1;
     total := count st;
     next_disabled := currentIndex st =? count st - 1 |}.

Inductive view :=
| LoadingView
| NoResults
| Compare (table : option (list row)) (shown_prompt : string)
    (left right : panel) (nav : navigation).

(** The component body.  [None] stands for the TypeError thrown by
    [currentExample.prompt] when [test_results[currentIndex]] is
    [undefined]. *)
Definition render (st : state) : option view :=
  if loading st then Some LoadingView
  else match evaluation st with
       | None => Some NoResults
       | Some ev =>
           match test_results ev with
           | None | Some [] => Some NoResults
           | Some rs =>
               match index_Z rs (currentIndex st) with
               | None => None
               | Some ex =>
                   Some (Compare (summary <$> metrics ev) (prompt ex)
                           (base_panel st (metrics ev) ex)
                           (finetuned_panel st (metrics ev) ex)
                           (navigation_of st))
               end
           end
       end.

(** *** Events

    What can happen to a mounted component: a poll of the evaluation comes
    back, or the user clicks a button.  A button only fires while the view
    that holds it is on screen and the button is not disabled. *)
Inductive event :=
| Fetched (answer : option Evaluation)
| ClickPrevious
| ClickNext
| ClickBetter (p : preferred).

Definition comparing (st : state) : bool :=
  match render st with
  | Some (Compare _ _ _ _ _) => true
  | _ => false
  end.

Definition step (evaluationId : Z) (accepts : rate_request -> bool)
    (e : event) (st : state) : state * list rate_request :=
  match e with
  | Fetched answer => (fetchEvaluation answer st, [])
  | ClickPrevious =>
      if comparing st && negb (currentIndex st =? 0)
      then (previous st, []) else (st, [])
  | ClickNext =>
      if comparing st && negb (currentIndex st =? count st - 1)
      then (next st, []) else (st, [])
  | ClickBetter p =>
      if comparing st then handleRating evaluationId p accepts st else (st, [])
  end.

(** The state after a sequence of events and every rating request sent on
    the way, oldest first. *)
Fixpoint run (evaluationId : Z) (accepts : rate_request -> bool)
    (es : list event) (st : state) : state * list rate_request :=
  match es with
  | [] => (st, [])
  | e :: es' =>
      let '(st1, sent1) := step evaluationId accepts e st in
      let '(st2, sent2) := run evaluationId accepts es' st1 in
      (st2, sent1 ++ sent2)
  end.

(** *** Invariant of the index *)

(** Every evaluation a poll brings back has [n] test results. *)
Definition polls_have (n : Z) (es : list event) : Prop :=
  Forall (fun e =>
            match e with
            | Fetched (Some ev) =>
                Z.of_nat (length (default [] (test_results ev))) = n
            | _ => True
            end) es.

(** What the events preserve: the index is inside [0, n), and the results
    held, if any, are [n]. *)
Definition index_invariant (n : Z) (st : state) : Prop :=
  0 <= currentIndex st < n /\
  (evaluation st = None \/ count st = n).

(** No poll brings back fewer results than the component held before it;
    [held] is the number of results held so far. *)
Fixpoint polls_never_shrink (held : nat) (es : list event) : Prop :=
  match es with
  | [] => True
  | Fetched (Some ev) :: es' =>
      (held <= length (default [] (test_results ev)))%nat /\
      polls_never_shrink (length (default [] (test_results ev))) es'
  | _ :: es' => polls_never_shrink held es'
  end.

(** The index is [0] or inside the results held. *)
Definition index_within (st : state) : Prop :=
  0 <= currentIndex st /\ (currentIndex st = 0 \/ currentIndex st < count st).

(** Some poll has come back. *)
Definition polled (es : list event) : bool :=
  existsb (fun e => match e with Fetched _ => true | _ => false end) es.

(** *** A rating in flight

    [handleRating] is asynchronous.  The click runs it on the values of the
    render the button belongs to: it reads [evaluation], [currentIndex] and
    [rating] and sends the request.  [setRating({...rating, [currentIndex]:
    preferred})] runs when the answer arrives, on whatever the state has
    become by then, and writes the map and the index that the click read.
    [handleRating] above is the case in which nothing happens between the
    click and the answer. *)
Record in_flight := {
  request : rate_request;
  captured : gmap Z preferred;
}.

(** The click: nothing is sent without an evaluation. *)
Definition clickBetter (evaluationId : Z) (p : preferred) (st : state)
  : option in_flight :=
  match evaluation st with
  | None => None
  | Some _ =>
      Some {| request := {| evaluation_id := evaluationId;
                            example_index := currentIndex st;
                            preferred_model := p |};
              captured := rating st |}
  end.

(** The answer to the request [f] arrives in state [st]; [accepted] is
    whether the POST succeeded. *)
Definition settle (accepted : bool) (f : in_flight) (st : state) : state :=
  if accepted
  then {| evaluation := evaluation st;
          currentIndex := currentIndex st;
          loading := loading st;
          rating := <[example_index (request f) := preferred_model (request f)]>
                      (captured f) |}
  else st.

End ModelComparison.

(** ** The training monitor ([components/TrainingProgress.tsx]) *)

Module TrainingProgress.

Record LogEntry := {
  step : Z;
  loss : float;
  epoch : float;
  timestamp : string;
}.

(** [config] is untyped in the source; the component reads
    [config?.num_epochs] only. *)
Record Config := {
  num_epochs : option float;
}.

Record TrainingJob := {
  id : Z;
  dataset_id : Z;
  status : string;
  config : option Config;
  model_path : option string;
  training_logs : option (list LogEntry);
  started_at : option string;
  completed_at : option string;
  error_message : option string;
}.

Record state := {
  job : option TrainingJob;
  loading : bool;
}.

Definition init : state := {| job := None; loading := true |}.

(** [fetchJob]: [answer] is the job the server returned, or [None] when the
    GET failed. *)
Definition fetchJob (answer : option TrainingJob) (st : state) : state :=
  {| job := match answer with Some j => Some j | None => job st end;
     loading := false |}.

(** [job.training_logs || []]. *)
Definition logs (j : TrainingJob) : list LogEntry :=
  default [] (training_logs j).

Definition chartData (j : TrainingJob) : list (Z * float) :=
  map (fun l => (step l, loss l)) (logs j).

(** [logs[logs.length - 1]]. *)
Definition latestLog (j : TrainingJob) : option LogEntry := last (logs j).

(** [job.config?.num_epochs ? logs.length : 0]. *)
Definition totalSteps (j : TrainingJob) : Z :=
  match config j ≫= num_epochs with
  | Some n => if Js.truthy_number n then Z.of_nat (length (logs j)) else 0
  | None => 0
  end.

Inductive colour := green | blue | red | gray.

Definition badge_colour (status : string) : colour :=
  if String.eqb status "completed" then green
  else if String.eqb status "training" then blue
  else if String.eqb status "failed" then red
  else gray.

Record progress := {
  current_step : Z;
  current_loss : string;
  current_epoch : string;
}.

Definition progress_block (j : TrainingJob) : option progress :=
  if String.eqb (status j) "training"
  then (fun l => {| current_step := step l;
                    current_loss := Js.toFixed 4 (loss l);
                    current_epoch := Js.toFixed 2 (epoch l) |}) <$> latestLog j
  else None.

(** The status card.  [started] and [completed] hold the time stamps that
    are handed to [Date] for printing. *)
Record card := {
  job_number : Z;
  dataset : Z;
  badge : colour * string;
  error_block : option string;
  current : option progress;
  started : option string;
  completed : option string;
}.

Definition status_card (j : TrainingJob) : card :=
  {| job_number := id j;
     dataset := dataset_id j;
     badge := (badge_colour (status j), status j);
     error_block := Js.when_truthy (error_message j);
     current := progress_block j;
     started := Js.when_truthy (started_at j);
     completed := Js.when_truthy (completed_at j) |}.

(** The link "Evaluate Model" to [/evaluation/{job.id}]:
    [job.status === 'completed' && job.model_path && ...]. *)
Definition evaluate_link (j : TrainingJob) : option Z :=
  if String.eqb (status j) "completed"
  then match Js.when_truthy (model_path j) with
       | Some _ => Some (id j)
       | None => None
       end
  else None.

Record page := {
  summary : card;
  loss_chart : option (list (Z * float));
  actions : option Z;
}.

Definition page_of (j : TrainingJob) : page :=
  {| summary := status_card j;
     loss_chart := match chartData j with
                   | [] => None
                   | d => Some d
                   end;
     actions := evaluate_link j |}.

Inductive view :=
| LoadingView
| NotFound
| Job (p : page).

Definition render (st : state) : view :=
  if loading st then LoadingView
  else match job st with
       | None => NotFound
       | Some j => Job (page_of j)
       end.

(** The state after the polls whose answers are [answers], oldest first. *)
Definition polls (answers : list (option TrainingJob)) (st : state) : state :=
  fold_left (fun st answer => fetchJob answer st) answers st.

(** The job of the latest poll that succeeded. *)
Definition latest_job (answers : list (option TrainingJob)) : option TrainingJob :=
  last (omap (fun answer => answer) answers).

End TrainingProgress.

(** ** The metrics card ([components/MetricsCard.tsx]) *)

Module MetricsCard.

(** [value] is a string or a number; both are printed as they are. *)
Inductive value :=
| Text (s : string)
| Number (x : float).

Record props := {
  title : string;
  shown_value : value;
  subtitle : option string;
  improvement : option float;
  icon : bool;
}.

Record view := {
  title_line : string;
  value_line : value;
  subtitle_line : option string;
  improvement_line : option float;
  icon_shown : bool;
}.

Definition render (p : props) : view :=
  {| title_line := title p;
     value_line := shown_value p;
     subtitle_line := Js.when_truthy (subtitle p);
     improvement_line :=
       match improvement p with
       | Some x => if Js.gt_zero x then Some x else None
       | None => None
       end;
     icon_shown := icon p |}.

End MetricsCard.

(** ** The datasets page ([app/datasets/page.tsx]) *)

Module DatasetsPage.

(** [validation_report] is carried by the server but never read here. *)
Record Dataset := {
  id : Z;
  name : string;
  num_examples : option Z;
  validation_status : option string;
  created_at : string;
}.

Record state := {
  datasets : list Dataset;
  loading : bool;
  showUpload : bool;
}.

Definition init : state :=
  {| datasets := []; loading := true; showUpload := false |}.

(** [fetchDatasets]: [answer] is the list the server returned, or [None]
    when the GET failed. *)
Definition fetchDatasets (answer : option (list Dataset)) (st : state) : state :=
  {| datasets := default (datasets st) answer;
     loading := false;
     showUpload := showUpload st |}.

(** What a handler does besides changing the state. *)
Inductive effect :=
| Alert (message : string)
| GoToTraining (job : Z)
| Refetch.

(** The body of the POST to [/api/training/start]. *)
Record start_request := {
  dataset_id : Z;
}.

Definition handleStartTraining_request (datasetId : Z) : start_request :=
  {| dataset_id := datasetId |}.

(** [handleStartTraining], once the server has answered with the id of the
    new job or with a failure. *)
Definition handleStartTraining (answer : result Http.error Z) : effect :=
  match answer with
  | Ok job => GoToTraining job
  | Err err => Alert (Js.or_string (Http.detail_of err) "Failed to start training")
  end.

(** [handleDelete]: nothing is sent unless the user confirms; [answer] tells
    whether the DELETE succeeded. *)
Definition handleDelete (confirmed : bool) (answer : bool) : list effect :=
  if confirmed
  then if answer then [Refetch] else [Alert "Failed to delete dataset"]
  else [].

Definition setShowUpload (b : bool) (st : state) : state :=
  {| datasets := datasets st; loading := loading st; showUpload := b |}.

(** The button in the header: [setShowUpload(!showUpload)]. *)
Definition toggleUpload (st : state) : state :=
  setShowUpload (negb (showUpload st)) st.

(** [onUploadSuccess] of the upload panel: the panel is closed and the list
    is fetched again, with answer [answer]. *)
Definition uploadSucceeded (answer : option (list Dataset)) (st : state) : state :=
  fetchDatasets answer (setShowUpload false st).

Inductive colour := green | red | gray.

Record table_row := {
  name_cell : string;
  examples_cell : Z;
  status_badge : colour * string;
  created_cell : string;
  train_button : option Z;
  delete_button : Z;
}.

(** [n || 0] for a count. *)
Definition or_zero_count (n : option Z) : Z := default 0 n.

Definition row_of (d : Dataset) : table_row :=
  {| name_cell := name d;
     examples_cell := or_zero_count (num_examples d);
     status_badge :=
       (if bool_decide (validation_status d = Some "valid"%string) then green
        else if bool_decide (validation_status d = Some "invalid"%string) then red
        else gray,
        Js.or_string (validation_status d) "pending");
     created_cell := created_at d;
     train_button :=
       if bool_decide (validation_status d = Some "valid"%string)
       then Some (id d) else None;
     delete_button := id d |}.

Inductive listing :=
| LoadingDatasets
| NoDatasets
| Table (rows : list table_row).

Record view := {
  toggle_label : string;
  upload_panel : bool;
  body : listing;
}.

Definition render (st : state) : view :=
  {| toggle_label := if showUpload st then "Cancel" else "Upload Dataset";
     upload_panel := showUpload st;
     body := if loading st then LoadingDatasets
             else match datasets st with
                  | [] => NoDatasets
                  | ds => Table (map row_of ds)
                  end |}.

End DatasetsPage.

(** ** Parsed JSON values *)

Module Json.

#[warnings="-register-all"]
Inductive value :=
| Null
| Boolean (b : bool)
| Number (x : float)
| Text (s : string)
| Array (items : list value)
| Object (fields : list (string * value)).

(** [Boolean(v)]: the falsy values are [null], [false], [0], [NaN] and the
    empty string. *)
Definition truthy (v : value) : bool :=
  match v with
  | Null => false
  | Boolean b => b
  | Number x => Js.truthy_number x
  | Text s => Js.truthy_string s
  | Array _ | Object _ => true
  end.

(** The property [key] of an object, the last one when the key is
    repeated. *)
Fixpoint field (key : string) (fields : list (string * value)) : option value :=
  match fields with
  | [] => None
  | (k, v) :: rest =>
      match field key rest with
      | Some w => Some w
      | None => if String.eqb k key then Some v else None
      end
  end.

(** [v.key] for a value that came through [filter(Boolean)]: the property
    of an object, [undefined] on any other truthy value (no number, string,
    boolean or array has a property called [prompt] or [completion]). *)
Definition get (key : string) (v : value) : option value :=
  match v with
  | Object fields => field key fields
  | _ => None
  end.

End Json.

(** ** The upload component ([components/DatasetUpload.tsx]) *)

Module DatasetUpload.

Record ValidationReport := {
  valid : bool;
  num_examples : Z;
  avg_prompt_length : float;
  avg_completion_length : float;
  issues : list string;
  recommendations : list string;
}.

(** A file of the browser: its name and what [file.text()] resolves to,
    [None] when reading it fails. *)
Record File := {
  name : string;
  content : option string;
}.

Record state := {
  file : option File;
  uploading : bool;
  preview : list Json.value;
  validationReport : option ValidationReport;
  error : option string;
}.

Definition init : state :=
  {| file := None; uploading := false; preview := [];
     validationReport := None; error := None |}.

Definition setError (e : option string) (st : state) : state :=
  {| file := file st; uploading := uploading st; preview := preview st;
     validationReport := validationReport st; error := e |}.

Definition setFile (f : File) (st : state) : state :=
  {| file := Some f; uploading := uploading st; preview := preview st;
     validationReport := validationReport st; error := error st |}.

(** [text.split('\n').filter(line => line.trim())]: the lines that are not
    blank. *)
Definition lines (text : string) : list string :=
  List.filter (fun line => negb (Js.blank line)) (Js.split_newline text).

Section Parse.

(** [JSON.parse], with [None] for the SyntaxError it throws. *)
Variable JSON_parse : string -> option Json.value.

(** The preview of [handleFileSelect]: the non-blank lines, the first five
    of them parsed with [null] for a line that does not parse, and the falsy
    values dropped. *)
Definition previewData (text : string) : list Json.value :=
  List.filter Json.truthy
    (map (fun line => default Json.Null (JSON_parse line)) (take 5 (lines text))).

Definition handleFileSelect (selected : option File) (st : state) : state :=
  match selected with
  | None => st
  | Some f =>
      if negb (Js.endsWith (name f) ".jsonl")
      then setError (Some "File must be a .jsonl file"%string) st
      else
        match content f with
        | Some text =>
            {| file := Some f; uploading := uploading st;
               preview := previewData text;
               validationReport := None; error := None |}
        | None =>
            {| file := Some f; uploading := uploading st;
               preview := preview st;
               validationReport := None;
               error := Some "Error reading file"%string |}
        end
  end.

Definition handleDrop (dropped : option File) (st : state) : state :=
  match dropped with
  | Some f =>
      if Js.endsWith (name f) ".jsonl"
      then handleFileSelect (Some f) (setFile f st)
      else setError (Some "Please drop a .jsonl file"%string) st
  | None => setError (Some "Please drop a .jsonl file"%string) st
  end.

(** [handleUpload]: the state afterwards, the files posted to
    [/api/datasets] and whether [onUploadSuccess] was called.  [server]
    answers a posted file with its validation report or with a failure. *)
Definition handleUpload (server : File -> result Http.error ValidationReport)
    (st : state) : state * list File * bool :=
  match file st with
  | None => (st, [], false)
  | Some f =>
      match server f with
      | Ok report =>
          ({| file := file st; uploading := false; preview := preview st;
              validationReport := Some report; error := None |}, [f], true)
      | Err err =>
          ({| file := file st; uploading := false; preview := preview st;
              validationReport := validationReport st;
              error := Some (Js.or_string (Http.detail_of err) "Upload failed") |},
           [f], false)
      end
  end.

(** *** Events *)

Inductive event :=
| Select (selected : option File)
| Drop (dropped : option File)
| ClickUpload.

(** The upload button is rendered once a file is held and is disabled while
    an upload runs. *)
Definition step (server : File -> result Http.error ValidationReport)
    (e : event) (st : state) : state * list File :=
  match e with
  | Select selected => (handleFileSelect selected st, [])
  | Drop dropped => (handleDrop dropped st, [])
  | ClickUpload =>
      if uploading st then (st, []) else fst (handleUpload server st)
  end.

Fixpoint run (server : File -> result Http.error ValidationReport)
    (es : list event) (st : state) : state * list File :=
  match es with
  | [] => (st, [])
  | e :: es' =>
      let '(st1, sent1) := step server e st in
      let '(st2, sent2) := run server es' st1 in
      (st2, sent1 ++ sent2)
  end.

End Parse.


(** *** The rendered view *)

(** [example.prompt?.substring(0, 100)]: nothing for a missing or [null]
    property, the first hundred characters of a string, and a TypeError
    (the outer [None]) for any other value, which has no [substring]. *)
Definition clipped (v : option Json.value) : option (option string) :=
  match v with
  | None | Some Json.Null => Some None
  | Some (Json.Text s) => Some (Some (String.substring 0 100 s))
  | Some _ => None
  end.

Record preview_item := {
  prompt_text : option string;
  completion_text : option string;
}.

(** A parsed line whose [prompt] and [completion] are strings, [null] or
    missing. *)
Definition previewable (example : Json.value) : Prop :=
  is_Some (clipped (Json.get "prompt" example)) /\
  is_Some (clipped (Json.get "completion" example)).

Definition preview_item_of (example : Json.value) : option preview_item :=
  p ← clipped (Json.get "prompt" example);
  c ← clipped (Json.get "completion" example);
  Some {| prompt_text := p; completion_text := c |}.

Record report_view := {
  status_label : string;
  examples_line : Z;
  prompt_length_line : float;
  completion_length_line : float;
  issues_list : option (list string);
  recommendations_list : option (list string);
}.

Definition report_view_of (r : ValidationReport) : report_view :=
  {| status_label := if valid r then "Valid" else "Invalid";
     examples_line := num_examples r;
     prompt_length_line := avg_prompt_length r;
     completion_length_line := avg_completion_length r;
     issues_list := match issues r with
                    | [] => None
                    | l => Some (take 5 l)
                    end;
     recommendations_list := match recommendations r with
                             | [] => None
                             | l => Some l
                             end |}.

Record view := {
  drop_label : string;
  error_box : option string;
  preview_box : option (list preview_item);
  upload_button : option (bool * string);
  report_box : option report_view;
}.

(** The component body; [None] when a preview item throws. *)
Definition render (st : state) : option view :=
  items ← mapM preview_item_of (preview st);
  Some {| drop_label :=
            match file st with
            | Some f => name f
            | None => "Drag and drop a JSONL file, or click to select"
            end;
          error_box := Js.when_truthy (error st);
          preview_box := match items with
                         | [] => None
                         | l => Some l
                         end;
          upload_button :=
            match file st with
            | Some _ =>
                Some (uploading st,
                      if uploading st then "Uploading..." else "Upload Dataset")%string
            | None => None
            end;
          report_box := report_view_of <$> validationReport st |}.

End DatasetUpload.

(** ** The dashboard ([app/page.tsx]) *)

Module Dashboard.

(** The datasets have the fields of the datasets page. *)
Record TrainingJob := {
  id : Z;
  dataset_id : Z;
  status : string;
  started_at : option string;
  completed_at : option string;
}.

Record state := {
  datasets : list DatasetsPage.Dataset;
  trainingJobs : list TrainingJob;
  loading : bool;
}.

Definition init : state :=
  {| datasets := []; trainingJobs := []; loading := true |}.

(** [fetchData]: both lists are requested together ([Promise.all]) and
    stored only when both requests succeed; [answer] is [None] when either
    fails, and the list of jobs may be missing from its response
    ([trainingRes.data || []]). *)
Definition fetchData
    (answer : option (list DatasetsPage.Dataset * option (list TrainingJob)))
    (st : state) : state :=
  match answer with
  | Some (ds, js) =>
      {| datasets := ds; trainingJobs := default [] js; loading := false |}
  | None =>
      {| datasets := datasets st; trainingJobs := trainingJobs st; loading := false |}
  end.

Inductive colour := green | blue | red | gray.

Record dataset_line := {
  dataset_name : string;
  examples : Z;
  dataset_badge : colour * string;
}.

Definition dataset_line_of (d : DatasetsPage.Dataset) : dataset_line :=
  {| dataset_name := DatasetsPage.name d;
     examples := DatasetsPage.or_zero_count (DatasetsPage.num_examples d);
     dataset_badge :=
       (if bool_decide (DatasetsPage.validation_status d = Some "valid"%string)
        then green else red,
        Js.or_string (DatasetsPage.validation_status d) "pending") |}.

Record job_line := {
  job_link : Z;
  job_dataset : Z;
  job_badge : colour * string;
}.

Definition job_line_of (j : TrainingJob) : job_line :=
  {| job_link := id j;
     job_dataset := dataset_id j;
     job_badge :=
       (if String.eqb (status j) "completed" then green
        else if String.eqb (status j) "training" then blue
        else if String.eqb (status j) "failed" then red
        else gray,
        status j) |}.

(** A card lists the first five entries ([slice(0, 5)]) or says that there
    are none. *)
Inductive card (A : Type) :=
| Nothing
| Lines (lines : list A).

Arguments Nothing {A}.
Arguments Lines {A} lines.

Definition card_of {A B} (line : A -> B) (l : list A) : card B :=
  match l with
  | [] => Nothing
  | _ => Lines (map line (take 5 l))
  end.

Inductive view :=
| LoadingView
| Cards (datasets_card : card dataset_line) (jobs_card : card job_line).

Definition render (st : state) : view :=
  if loading st then LoadingView
  else Cards (card_of dataset_line_of (datasets st))
             (card_of job_line_of (trainingJobs st)).

End Dashboard.

(** ** Sample data

    Concrete values of the records above, on which the properties below are
    exercised. *)

Module Sample.

Import ModelComparison.

Definition example (n : string) (base_ms finetuned_ms : float) : TestExample :=
  {| prompt := String.append "Summarize note " n;
     base_output := String.append "Base summary " n;
     finetuned_output := String.append "Tuned summary " n;
     base_latency_ms := base_ms;
     finetuned_latency_ms := finetuned_ms;
     base_tokens := Some 200%float;
     finetuned_tokens := Some 180%float |}.

(** The fine-tuned model is faster (18.5 percent) but costlier per token
    (a cost improvement of -50 percent). *)
Definition metrics : Metrics :=
  {| base_model := {| avg_latency_ms := 120.5; avg_length := 64;
                      cost_per_1m_tokens := 0.5 |};
     finetuned_model := {| avg_latency_ms := 98.25; avg_length := 60;
                           cost_per_1m_tokens := 0.75 |};
     improvements := {| latency_improvement := 18.5;
                        cost_improvement := -50 |} |}.

Definition evaluation : Evaluation :=
  {| id := 7; training_job_id := 3;
     test_results := Some [example "1" 120 100; example "2" 121 96.5;
                           example "3" 120.5 98.25];
     ModelComparison.metrics := Some metrics;
     created_at := "2024-05-01T10:00:00" |}.

(** A later answer of the server that holds one result only. *)
Definition short_evaluation : Evaluation :=
  {| id := 7; training_job_id := 3;
     test_results := Some [example "1" 120 100];
     ModelComparison.metrics := None;
     created_at := "2024-05-01T10:00:00" |}.

(** The view after the first poll and one click on Next. *)
Definition state : state :=
  {| ModelComparison.evaluation := Some evaluation; currentIndex := 1;
     loading := false; rating := ∅ |}.


Definition card : MetricsCard.props :=
  {| MetricsCard.title := "Latency"; MetricsCard.shown_value := MetricsCard.Number 98.25;
     MetricsCard.subtitle := Some "ms per answer"%string;
     MetricsCard.improvement := Some 18.5%float; MetricsCard.icon := false |}.

(** An evaluation of the server with fifty test results and no rating. *)
Definition server_evaluation : Backend.Evaluation nat unit :=
  {| Backend.test_results := seq 0 50; Backend.metrics := tt;
     Backend.preferences := ∅ |}.

Definition failure (code : Z) (detail : option string) : Http.error :=
  {| Http.response := Some {| Http.status := code; Http.detail := detail |} |}.

(** The request never reached the server. *)
Definition network_failure : Http.error := {| Http.response := None |}.

Definition job (status : string) (path message : option string)
  : TrainingProgress.TrainingJob :=
  {| TrainingProgress.id := 3; TrainingProgress.dataset_id := 1;
     TrainingProgress.status := status;
     TrainingProgress.config := Some {| TrainingProgress.num_epochs := Some 3%float |};
     TrainingProgress.model_path := path;
     TrainingProgress.training_logs :=
       Some [ {| TrainingProgress.step := 1; TrainingProgress.loss := 2.5;
                 TrainingProgress.epoch := 0.25;
                 TrainingProgress.timestamp := "2024-05-01T09:00:10" |};
              {| TrainingProgress.step := 2; TrainingProgress.loss := 1.75;
                 TrainingProgress.epoch := 0.5;
                 TrainingProgress.timestamp := "2024-05-01T09:00:20" |} ];
     TrainingProgress.started_at := Some "2024-05-01T09:00:00"%string;
     TrainingProgress.completed_at := None;
     TrainingProgress.error_message := message |}.

Definition monitor (j : TrainingProgress.TrainingJob) : TrainingProgress.state :=
  {| TrainingProgress.job := Some j; TrainingProgress.loading := false |}.

Definition dataset (status : option string) : DatasetsPage.Dataset :=
  {| DatasetsPage.id := 1; DatasetsPage.name := "notes.jsonl";
     DatasetsPage.num_examples := Some 60;
     DatasetsPage.validation_status := status;
     DatasetsPage.created_at := "2024-05-01T08:00:00" |}.

Definition notes : DatasetUpload.File :=
  {| DatasetUpload.name := "notes.jsonl";
     DatasetUpload.content := Some "first
not json

second"%string |}.


(** A stand-in for [JSON.parse] that reads a line as a JSON string unless
    it contains a space. *)
Definition parse_word (line : string) : option Json.value :=
  if Js.includes line " " then None else Some (Json.Text line).




End Sample.

(** * Properties *)

(** ** Numbers and strings *)

(** A number at most zero is not greater than zero; neither is [NaN], which
    compares false with everything. *)
Lemma gt_zero_nonpositive (x : float) :
  PrimFloat.leb x 0%float = true -> Js.gt_zero x = false.
Proof.
  unfold Js.gt_zero. rewrite leb_spec, ltb_spec.
  change (Prim2SF 0) with (S754_zero false).
  destruct (Prim2SF x) as [[]|[]| |[] m e]; cbn; congruence.
Qed.

Lemma gt_zero_positive (x : float) :
  Js.gt_zero x = true <->
  match Prim2SF x with
  | S754_finite false _ _ | S754_infinity false => True
  | _ => False
  end.
Proof.
  unfold Js.gt_zero. rewrite ltb_spec.
  change (Prim2SF 0) with (S754_zero false).
  destruct (Prim2SF x) as [[]|[]| |[] m e]; cbn; intuition congruence.
Qed.

Lemma or_string_truthy (o : option string) (d : string) :
  Js.truthy_string d = true -> Js.truthy_string (Js.or_string o d) = true.
Proof.
  intros Hd. destruct o as [[|c s]|]; cbn; auto.
Qed.

Lemma when_truthy_Some (o : option string) (s : string) :
  Js.when_truthy o = Some s <-> o = Some s /\ s <> EmptyString.
Proof.
  destruct o as [[|c r]|]; cbn; split; try intros [? ?]; try congruence.
  - intros [= <-]. split; [reflexivity | discriminate].
Qed.

Lemma when_truthy_None (o : option string) :
  Js.when_truthy o = None <-> o = None \/ o = Some EmptyString.
Proof.
  destruct o as [[|c r]|]; cbn; split; try intros [?|?]; try congruence; auto.
Qed.

(** ** The summary table and its improvement badges *)

(** C1: whenever the comparison view renders a Metrics value, the summary
    table has the three rows latency, cost and length with the raw value of
    each model in every row; the latency row carries a badge exactly when
    [latency_improvement > 0] and the cost row exactly when
    [cost_improvement > 0], each badge showing that percentage; an
    improvement that is at most zero gives no badge.  The metrics card shows
    its improvement line under the same test. *)
Theorem improvement_badge_iff_positive
    (st : ModelComparison.state) (ev : ModelComparison.Evaluation)
    (m : ModelComparison.Metrics) (table : option (list ModelComparison.row))
    (shown_prompt : string) (l r : ModelComparison.panel)
    (nav : ModelComparison.navigation) (card : MetricsCard.props) :
  ModelComparison.evaluation st = Some ev ->
  ModelComparison.metrics ev = Some m ->
  ModelComparison.render st =
    Some (ModelComparison.Compare table shown_prompt l r nav) ->
  let li := ModelComparison.latency_improvement (ModelComparison.improvements m) in
  let ci := ModelComparison.cost_improvement (ModelComparison.improvements m) in
  let bm := ModelComparison.base_model m in
  let fm := ModelComparison.finetuned_model m in
  (exists lat cost len,
      table = Some [lat; cost; len] /\
      ModelComparison.base_cell lat = ModelComparison.avg_latency_ms bm /\
      ModelComparison.finetuned_cell lat = ModelComparison.avg_latency_ms fm /\
      ModelComparison.base_cell cost = ModelComparison.cost_per_1m_tokens bm /\
      ModelComparison.finetuned_cell cost = ModelComparison.cost_per_1m_tokens fm /\
      ModelComparison.base_cell len = ModelComparison.avg_length bm /\
      ModelComparison.finetuned_cell len = ModelComparison.avg_length fm /\
      (is_Some (ModelComparison.improvement_badge lat) <-> Js.gt_zero li = true) /\
      (is_Some (ModelComparison.improvement_badge cost) <-> Js.gt_zero ci = true) /\
      (forall b, ModelComparison.improvement_badge lat = Some b ->
                 b = ModelComparison.Faster li) /\
      (forall b, ModelComparison.improvement_badge cost = Some b ->
                 b = ModelComparison.Cheaper ci) /\
      (PrimFloat.leb li 0%float = true ->
       ModelComparison.improvement_badge lat = None) /\
      (PrimFloat.leb ci 0%float = true ->
       ModelComparison.improvement_badge cost = None) /\
      ModelComparison.improvement_badge len = None) /\
  (forall x, MetricsCard.improvement_line (MetricsCard.render card) = Some x <->
             MetricsCard.improvement card = Some x /\ Js.gt_zero x = true).
Proof.
  intros Hev Hm Hr li ci bm fm. split.
  - unfold ModelComparison.render in Hr. rewrite Hev in Hr.
    destruct (ModelComparison.loading st); [discriminate|].
    destruct (ModelComparison.test_results ev) as [[|e0 rs]|]; try discriminate.
    destruct (index_Z (e0 :: rs) (ModelComparison.currentIndex st)); [|discriminate].
    injection Hr as <- _ _ _ _. rewrite Hm. cbn [fmap option_fmap option_map].
    unfold ModelComparison.summary. fold li ci bm fm.
    pose proof (gt_zero_nonpositive li) as Hli.
    pose proof (gt_zero_nonpositive ci) as Hci.
    destruct (Js.gt_zero li), (Js.gt_zero ci);
      do 3 eexists; (split; [reflexivity|]); cbn;
      repeat match goal with
             | |- _ /\ _ => split
             | |- _ <-> _ => split
             end;
      try reflexivity; try (intros [? ?]); try discriminate; eauto;
      try (intros ? [= <-]; reflexivity);
      try (intros Hle; specialize (Hli Hle) || specialize (Hci Hle); discriminate).
  - intros x. unfold MetricsCard.render. cbn [MetricsCard.improvement_line].
    destruct (MetricsCard.improvement card) as [y|].
    + destruct (Js.gt_zero y) eqn:Hy; split.
      * intros [= <-]. auto.
      * intros [[= <-] _]. reflexivity.
      * discriminate.
      * intros [[= <-] ?]. congruence.
    + split; [|intros [? ?]]; discriminate.
Qed.

Lemma improvement_badge_iff_positive_witness :
  exists lat cost len,
    Some (ModelComparison.summary Sample.metrics) = Some [lat; cost; len] /\
    ModelComparison.improvement_badge lat = Some (ModelComparison.Faster 18.5) /\
    ModelComparison.improvement_badge cost = None.
Proof.
  destruct (improvement_badge_iff_positive Sample.state Sample.evaluation
              Sample.metrics _ _ _ _ _ Sample.card eq_refl eq_refl eq_refl)
    as [(lat & cost & len & Ht & _ & _ & _ & _ & _ & _ & Hl & _ & Hb & _ & _ & Hc & _) _].
  exists lat, cost, len. split; [exact Ht|]. split.
  - destruct (proj2 Hl eq_refl) as [b Hb']. rewrite Hb'. f_equal. exact (Hb b Hb').
  - exact (Hc eq_refl).
Defined.

(** ** The test split and the number of examples shown *)

Lemma length_last_examples {A} (k : nat) (examples : list A) :
  length (Backend.last_examples k examples) = Nat.min k (length examples).
Proof. unfold Backend.last_examples. rewrite length_drop. lia. Qed.

(** For a dataset of at least two examples that is shorter than the
    requested size, a split of 20 percent does not have min(testSize, n)
    elements. *)
Lemma rules_disagree {A} (testSize : nat) (examples split : list A) :
  (2 <= length examples < testSize)%nat ->
  Backend.split_rule testSize examples split ->
  ~ Backend.count_rule testSize examples split.
Proof.
  intros [H2 Hlt]. unfold Backend.split_rule, Backend.count_rule.
  destruct (Nat.ltb_spec (length examples) testSize) as [_|Hge]; [|lia].
  intros (k & -> & Hlo & Hhi). rewrite length_last_examples. lia.
Qed.

(** For a dataset that has the requested number of examples, the selection
    rule says the same as the count rule together with "a final segment of
    the dataset". *)
Lemma rules_agree {A} (testSize : nat) (examples split : list A) :
  (testSize <= length examples)%nat ->
  Backend.split_rule testSize examples split <->
  Backend.count_rule testSize examples split /\
  exists before, examples = before ++ split.
Proof.
  intros Hle. unfold Backend.split_rule, Backend.count_rule.
  destruct (Nat.ltb_spec (length examples) testSize) as [Hlt|_]; [lia|].
  split.
  - intros ->. split; [apply length_last_examples|].
    exists (take (length examples - testSize) examples).
    symmetry. apply take_drop.
  - intros [Hlen [before Hex]]. unfold Backend.last_examples.
    assert (Hb : (length examples - testSize)%nat = length before).
    { rewrite Hex at 1. rewrite length_app. lia. }
    rewrite Hb. rewrite Hex at 1. rewrite drop_app_length. reflexivity.
Qed.

(** C2, as stated, fails, whatever the evaluation engine does: for a dataset
    of 10 examples and a requested size of 50 no split is both the last 20
    percent of the dataset (2 examples) and of min(50, 10) = 10 examples. *)
Lemma no_split_is_both_a_fifth_and_the_minimum :
  ~ (exists split : list nat,
       Backend.split_rule 50 (seq 0 10) split /\
       Backend.count_rule 50 (seq 0 10) split).
Proof.
  intros (split & Hsplit & Hcount).
  apply (rules_disagree 50 (seq 0 10) split); [vm_compute; lia | exact Hsplit | exact Hcount].
Qed.

(** C2, amended: for a dataset that has at least [testSize] examples, the
    two rules of the specification say the same: the split is the last
    [testSize] examples in their original order, which are min(testSize, n)
    examples, and this is the only split that has that many examples and
    is a final segment of the dataset; so two runs on the same dataset with
    the same [testSize] select identical splits.  The evaluation page asks
    for 50, and the comparison view shows the number of results it received
    as the total of its counter. *)
Theorem full_split_is_the_last_test_size_examples {A}
    (testSize : nat) (examples : list A) (job : Z)
    (st : ModelComparison.state) (table : option (list ModelComparison.row))
    (shown_prompt : string) (l r : ModelComparison.panel)
    (nav : ModelComparison.navigation) :
  (testSize <= length examples)%nat ->
  ModelComparison.render st =
    Some (ModelComparison.Compare table shown_prompt l r nav) ->
  (forall split,
     Backend.split_rule testSize examples split <->
     Backend.count_rule testSize examples split /\
     exists before, examples = before ++ split) /\
  (forall split,
     Backend.split_rule testSize examples split ->
     split = Backend.last_examples testSize examples /\
     length split = testSize /\
     length split = Nat.min testSize (length examples) /\
     forall i x, split !! i = Some x <->
                 (i < testSize)%nat /\
                 examples !! (length examples - testSize + i)%nat = Some x) /\
  (forall first second,
     Backend.split_rule testSize examples first ->
     Backend.split_rule testSize examples second ->
     first = second) /\
  EvaluationPage.test_size (EvaluationPage.startEvaluation_request job) = 50 /\
  EvaluationPage.training_job_id (EvaluationPage.startEvaluation_request job) = job /\
  ModelComparison.total nav = Z.of_nat (length (ModelComparison.results st)) /\
  ModelComparison.shown nav = ModelComparison.currentIndex st + 1 /\
  1 <= ModelComparison.shown nav <= ModelComparison.total nav.
Proof.
  intros Hle Hr.
  assert (Hlast : forall split, Backend.split_rule testSize examples split ->
                                split = Backend.last_examples testSize examples).
  { intros split. unfold Backend.split_rule.
    destruct (Nat.ltb_spec (length examples) testSize); [lia | auto]. }
  split; [intros split; apply rules_agree; exact Hle|].
  split; [|split].
  - intros split Hsplit. rewrite (Hlast split Hsplit).
    split; [reflexivity|]. rewrite length_last_examples.
    split; [lia|]. split; [reflexivity|].
    intros i x. unfold Backend.last_examples. rewrite lookup_drop. split.
    + intros Hi. split; [|exact Hi]. apply lookup_lt_Some in Hi. lia.
    + intros [_ Hi]. exact Hi.
  - intros first second H1 H2. rewrite (Hlast first H1), (Hlast second H2).
    reflexivity.
  - split; [reflexivity|]. split; [reflexivity|].
    unfold ModelComparison.render in Hr.
    destruct (ModelComparison.loading st); [discriminate|].
    destruct (ModelComparison.evaluation st) as [ev|] eqn:Hev; [|discriminate].
    destruct (ModelComparison.test_results ev) as [[|e0 rs]|] eqn:Hrs;
      try discriminate.
    destruct (index_Z (e0 :: rs) (ModelComparison.currentIndex st)) as [ex|] eqn:Hi;
      [|discriminate].
    injection Hr as _ _ _ _ <-.
    unfold ModelComparison.navigation_of, ModelComparison.count,
      ModelComparison.results. cbn [ModelComparison.total ModelComparison.shown].
    rewrite Hev. cbn [mbind option_bind]. rewrite Hrs. cbn [default].
    split; [reflexivity|]. split; [reflexivity|].
    unfold index_Z in Hi.
    destruct (Z.ltb_spec (ModelComparison.currentIndex st) 0); [discriminate|].
    apply lookup_lt_Some in Hi. unfold id. lia.
Qed.

Lemma full_split_is_the_last_test_size_examples_witness :
  (50 <= length (seq 0 60))%nat /\
  Backend.split_rule 50 (seq 0 60) (seq 10 50) /\
  Backend.count_rule 50 (seq 0 60) (seq 10 50) /\
  ModelComparison.total (ModelComparison.navigation_of Sample.state) = 3.
Proof.
  assert (Hle : (50 <= length (seq 0 60))%nat) by (vm_compute; lia).
  destruct (full_split_is_the_last_test_size_examples 50 (seq 0 60) 3 Sample.state
              _ _ _ _ _ Hle eq_refl) as (Hiff & _ & _ & _ & _ & Ht & _).
  split; [exact Hle|]. split; [reflexivity|].
  split; [|exact Ht].
  apply (proj1 (Hiff (seq 10 50))). reflexivity.
Defined.

(** ** Rating an example *)

Lemma rate_in_range {R M} (ev : Backend.Evaluation R M) (i : Z) (p : preferred) :
  0 <= i < Z.of_nat (length (Backend.test_results ev)) ->
  Backend.rate ev i p =
  Ok {| Backend.test_results := Backend.test_results ev;
        Backend.metrics := Backend.metrics ev;
        Backend.preferences := <[i := p]> (Backend.preferences ev) |}.
Proof.
  intros [H0 Hn]. unfold Backend.rate.
  destruct (Z.leb_spec 0 i); [|lia].
  destruct (Z.ltb_spec i (Z.of_nat (length (Backend.test_results ev)))); [|lia].
  reflexivity.
Qed.

Lemma rate_out_of_range {R M} (ev : Backend.Evaluation R M) (i : Z) (p : preferred) :
  i < 0 \/ Z.of_nat (length (Backend.test_results ev)) <= i ->
  Backend.rate ev i p = Err Backend.RangeError.
Proof.
  intros H. unfold Backend.rate.
  destruct (Z.leb_spec 0 i); cbn [andb]; [|reflexivity].
  destruct (Z.ltb_spec i (Z.of_nat (length (Backend.test_results ev)))); [lia|].
  reflexivity.
Qed.

Lemma handleRating_keeps_evaluation (evaluationId : Z) (p : preferred)
    (accepts : ModelComparison.rate_request -> bool) (st : ModelComparison.state) :
  ModelComparison.evaluation (fst (ModelComparison.handleRating evaluationId p accepts st)) =
    ModelComparison.evaluation st /\
  ModelComparison.currentIndex (fst (ModelComparison.handleRating evaluationId p accepts st)) =
    ModelComparison.currentIndex st /\
  ModelComparison.loading (fst (ModelComparison.handleRating evaluationId p accepts st)) =
    ModelComparison.loading st.
Proof.
  unfold ModelComparison.handleRating.
  destruct (ModelComparison.evaluation st) eqn:Hev; [|cbn; auto].
  destruct (accepts _); cbn; auto.
Qed.

(** C3: [rate] fails with RangeError for an index below zero or from the
    number of test results on; for an index inside the range it stores the
    preference under that index and changes neither the test results nor the
    metrics; the same call again changes nothing, and a call with another
    preference for the same index replaces the stored one.  The handler of
    the view that sends the rating keeps its local record in the same way
    and never touches the evaluation it shows. *)
Theorem rate_is_range_checked_upsert {R M}
    (ev : Backend.Evaluation R M) (i : Z) (p q : preferred)
    (evaluationId : Z) (accepts : ModelComparison.rate_request -> bool)
    (st : ModelComparison.state) :
  let n := Z.of_nat (length (Backend.test_results ev)) in
  let st1 := fst (ModelComparison.handleRating evaluationId p accepts st) in
  (i < 0 \/ n <= i -> Backend.rate ev i p = Err Backend.RangeError) /\
  (0 <= i < n ->
   exists ev1,
     Backend.rate ev i p = Ok ev1 /\
     Backend.preferences ev1 = <[i := p]> (Backend.preferences ev) /\
     Backend.metrics ev1 = Backend.metrics ev /\
     Backend.test_results ev1 = Backend.test_results ev /\
     Backend.rate ev1 i p = Ok ev1 /\
     exists ev2,
       Backend.rate ev1 i q = Ok ev2 /\
       Backend.preferences ev2 = <[i := q]> (Backend.preferences ev) /\
       Backend.metrics ev2 = Backend.metrics ev) /\
  ModelComparison.evaluation st1 = ModelComparison.evaluation st /\
  fst (ModelComparison.handleRating evaluationId p accepts st1) = st1.
Proof.
  intros n st1. split; [apply rate_out_of_range|]. split.
  - intros Hi. eexists. split; [apply rate_in_range; exact Hi|].
    cbn [Backend.preferences Backend.metrics Backend.test_results].
    repeat split.
    + rewrite rate_in_range by exact Hi.
      cbn [Backend.preferences Backend.metrics Backend.test_results].
      by rewrite insert_insert_eq.
    + eexists. split; [apply rate_in_range; exact Hi|].
      cbn [Backend.preferences Backend.metrics Backend.test_results].
      by rewrite insert_insert_eq.
  - split; [apply handleRating_keeps_evaluation|].
    subst st1. unfold ModelComparison.handleRating.
    destruct (ModelComparison.evaluation st) as [e|] eqn:Hev.
    + destruct (accepts _) eqn:Hacc.
      * cbn [fst ModelComparison.evaluation ModelComparison.currentIndex
               ModelComparison.rating ModelComparison.loading].
        rewrite Hacc. cbn [fst]. by rewrite insert_insert_eq.
      * cbn [fst]. rewrite Hev, Hacc. reflexivity.
    + cbn [fst]. rewrite Hev. reflexivity.
Qed.

Lemma rate_is_range_checked_upsert_witness :
  Backend.rate Sample.server_evaluation 50 finetuned = Err Backend.RangeError /\
  exists ev1,
    Backend.rate Sample.server_evaluation 49 finetuned = Ok ev1 /\
    Backend.rate ev1 49 finetuned = Ok ev1.
Proof.
  destruct (rate_is_range_checked_upsert Sample.server_evaluation 50
              finetuned base 7 (fun _ => true) Sample.state)
    as (Hout & _).
  destruct (rate_is_range_checked_upsert Sample.server_evaluation 49
              finetuned base 7 (fun _ => true) Sample.state)
    as (_ & Hin & _).
  split.
  - apply Hout. right. vm_compute. discriminate.
  - destruct Hin as (ev1 & H1 & _ & _ & _ & H2 & _).
    + vm_compute. split; [discriminate | reflexivity].
    + exists ev1. split; assumption.
Defined.

(** ** Failures of the evaluation page *)

(** C4: a failed start whose response has status 400 and a detail containing
    "not completed" is shown as the dedicated message about the unfinished
    training job; every other failure is shown as the detail of the server,
    or as "Failed to start evaluation" when there is none.  The generic
    text is never the dedicated one, and a failure outside the first class
    shows the dedicated text only if the server itself sent it as detail. *)
Theorem start_failure_is_classified (err : Http.error) (st : EvaluationPage.state) :
  let not_completed :=
    Http.status_of err = Some 400 /\
    exists d, Http.detail_of err = Some d /\ Js.includes d "not completed" = true in
  let shown :=
    EvaluationPage.render (EvaluationPage.startEvaluation (Err err) st) in
  (not_completed ->
   shown = EvaluationPage.ErrorView EvaluationPage.not_completed_message) /\
  (~ not_completed ->
   shown = EvaluationPage.ErrorView
             (Js.or_string (Http.detail_of err) EvaluationPage.generic_message)) /\
  EvaluationPage.generic_message <> EvaluationPage.not_completed_message /\
  (~ not_completed ->
   shown = EvaluationPage.ErrorView EvaluationPage.not_completed_message ->
   Http.detail_of err = Some EvaluationPage.not_completed_message).
Proof.
  intros not_completed shown.
  assert (Hmsg : forall m, Js.truthy_string m = true ->
            EvaluationPage.render
              {| EvaluationPage.evaluationId := EvaluationPage.evaluationId st;
                 EvaluationPage.loading := false;
                 EvaluationPage.error := Some m |} = EvaluationPage.ErrorView m).
  { intros [|c m] Hm; [discriminate | reflexivity]. }
  assert (Hno : ~ not_completed ->
            EvaluationPage.error_message err =
            Js.or_string (Http.detail_of err) EvaluationPage.generic_message).
  { intros Hn. unfold EvaluationPage.error_message.
    case_bool_decide as Hs; [|reflexivity].
    destruct (Http.detail_of err) as [d|] eqn:Hd; [|reflexivity].
    cbn [from_option]. destruct (Js.includes d "not completed") eqn:Hinc;
      [|reflexivity].
    exfalso. apply Hn. split; [exact Hs|]. exists d. auto. }
  split; [|split; [|split]].
  - intros (Hs & d & Hd & Hinc). subst shown. cbn [EvaluationPage.startEvaluation].
    unfold EvaluationPage.error_message. rewrite bool_decide_eq_true_2 by exact Hs.
    rewrite Hd. cbn [from_option]. rewrite Hinc. reflexivity.
  - intros Hn. subst shown. cbn [EvaluationPage.startEvaluation].
    rewrite (Hno Hn). apply Hmsg. by apply or_string_truthy.
  - discriminate.
  - intros Hn Hshown. subst shown. cbn [EvaluationPage.startEvaluation] in Hshown.
    rewrite (Hno Hn) in Hshown. rewrite Hmsg in Hshown by (by apply or_string_truthy).
    injection Hshown as Hshown.
    destruct (Http.detail_of err) as [[|c d]|]; cbn in Hshown;
      try discriminate; congruence.
Qed.

Lemma start_failure_is_classified_witness :
  EvaluationPage.render
    (EvaluationPage.startEvaluation
       (Err (Sample.failure 400 (Some "Training job is not completed"%string)))
       EvaluationPage.init)
  = EvaluationPage.ErrorView EvaluationPage.not_completed_message /\
  EvaluationPage.render
    (EvaluationPage.startEvaluation
       (Err (Sample.failure 404 (Some "Training job not found"%string)))
       EvaluationPage.init)
  = EvaluationPage.ErrorView "Training job not found".
Proof.
  split.
  - apply (start_failure_is_classified
             (Sample.failure 400 (Some "Training job is not completed"%string))
             EvaluationPage.init).
    split; [reflexivity|]. eexists. split; reflexivity.
  - apply (proj1 (proj2 (start_failure_is_classified
             (Sample.failure 404 (Some "Training job not found"%string))
             EvaluationPage.init))).
    intros [Hs _]. discriminate Hs.
Defined.

(** ** Starting a training job from the datasets page *)

Lemma or_string_cases (o : option string) (d : string) :
  (exists s, o = Some s /\ s <> EmptyString /\ Js.or_string o d = s) \/
  ((o = None \/ o = Some EmptyString) /\ Js.or_string o d = d).
Proof.
  destruct o as [[|c s]|]; cbn.
  - right. auto.
  - left. eexists. split; [reflexivity|]. split; [discriminate | reflexivity].
  - right. auto.
Qed.

(** C5, as stated, fails: a failure answered without a detail (here a bare
    status 500) has no detail message of the server to show; the alert
    carries the fixed text of the page instead. *)
Lemma start_training_failure_without_detail :
  ~ (exists d, Http.detail_of (Sample.failure 500 None) = Some d /\
               DatasetsPage.handleStartTraining (Err (Sample.failure 500 None)) =
               DatasetsPage.Alert d).
Proof. intros (d & Hd & _). discriminate Hd. Qed.

(** C5, amended: [startTraining] fails with PreconditionError for a dataset
    whose status is not valid; the datasets page renders the Train button of
    a row exactly when its [validation_status] is the string "valid", and
    the button starts training for the dataset of that row; every failure of
    the start request raises an alert with a non-empty text, which is the
    detail of the server when the response carries a non-empty one and
    "Failed to start training" otherwise. *)
Theorem train_needs_valid_and_failure_is_alerted {A}
    (d : Backend.Dataset A) (next_job : Z) (st : DatasetsPage.state)
    (row : DatasetsPage.Dataset) (err : Http.error) :
  (Backend.status d <> Backend.valid ->
   Backend.startTraining d next_job = Err Backend.PreconditionError) /\
  (forall rows, DatasetsPage.body (DatasetsPage.render st) = DatasetsPage.Table rows ->
                rows = map DatasetsPage.row_of (DatasetsPage.datasets st)) /\
  (is_Some (DatasetsPage.train_button (DatasetsPage.row_of row)) <->
   DatasetsPage.validation_status row = Some "valid"%string) /\
  (forall i, DatasetsPage.train_button (DatasetsPage.row_of row) = Some i ->
             DatasetsPage.handleStartTraining_request i =
             {| DatasetsPage.dataset_id := DatasetsPage.id row |}) /\
  exists message,
    DatasetsPage.handleStartTraining (Err err) = DatasetsPage.Alert message /\
    message <> EmptyString /\
    (forall s, Http.detail_of err = Some s -> s <> EmptyString -> message = s) /\
    (Http.detail_of err = None \/ Http.detail_of err = Some EmptyString ->
     message = "Failed to start training"%string).
Proof.
  split; [|split; [|split; [|split]]].
  - intros Hs. unfold Backend.startTraining.
    destruct (Backend.status d); congruence.
  - intros rows. unfold DatasetsPage.render. cbn [DatasetsPage.body].
    destruct (DatasetsPage.loading st); [discriminate|].
    destruct (DatasetsPage.datasets st); [discriminate|]. congruence.
  - unfold DatasetsPage.row_of. cbn [DatasetsPage.train_button].
    case_bool_decide as Hv; split; auto.
    + intros [? ?]; discriminate.
    + intros Hv'. contradiction.
  - intros i. unfold DatasetsPage.row_of. cbn [DatasetsPage.train_button].
    case_bool_decide; [|discriminate]. intros [= <-]. reflexivity.
  - eexists. split; [reflexivity|].
    destruct (or_string_cases (Http.detail_of err) "Failed to start training")
      as [(s & Hs & Hne & ->)|[Hs ->]].
    + split; [exact Hne|]. split; [congruence|].
      intros [H|H]; rewrite H in Hs; congruence.
    + split; [discriminate|]. split; [|reflexivity].
      intros s Hd Hne. destruct Hs as [Hs|Hs]; rewrite Hs in Hd; congruence.
Qed.

Lemma train_needs_valid_and_failure_is_alerted_witness :
  Backend.startTraining
    {| Backend.examples := [1%nat]; Backend.status := Backend.invalid |} 4 =
    Err Backend.PreconditionError /\
  DatasetsPage.train_button (DatasetsPage.row_of (Sample.dataset (Some "invalid"%string))) = None /\
  is_Some (DatasetsPage.train_button (DatasetsPage.row_of (Sample.dataset (Some "valid"%string)))).
Proof.
  pose proof (train_needs_valid_and_failure_is_alerted
                {| Backend.examples := [1%nat]; Backend.status := Backend.invalid |} 4
                DatasetsPage.init (Sample.dataset (Some "valid"%string))
                Sample.network_failure) as (Hpre & _ & Hvalid & _).
  split; [apply Hpre; discriminate|].
  split; [reflexivity|].
  apply Hvalid. reflexivity.
Defined.

(** ** The training monitor *)

Lemma render_job (st : TrainingProgress.state) (j : TrainingProgress.TrainingJob)
    (pg : TrainingProgress.page) :
  TrainingProgress.job st = Some j ->
  TrainingProgress.render st = TrainingProgress.Job pg ->
  pg = TrainingProgress.page_of j.
Proof.
  intros Hj. unfold TrainingProgress.render. rewrite Hj.
  destruct (TrainingProgress.loading st); congruence.
Qed.

(** C6, as stated, fails: a completed job whose [model_path] is the empty
    string has a non-null path, yet the Evaluate Model link is not
    rendered, since the empty string is falsy. *)
Lemma evaluate_link_needs_nonempty_path :
  ~ (is_Some (TrainingProgress.actions
                (TrainingProgress.page_of
                   (Sample.job "completed" (Some EmptyString) None))) <->
     TrainingProgress.status (Sample.job "completed" (Some EmptyString) None) =
       "completed"%string /\
     TrainingProgress.model_path (Sample.job "completed" (Some EmptyString) None) <>
       None).
Proof.
  intros [_ H].
  destruct H as [i Hi]; [split; [reflexivity | discriminate] | discriminate Hi].
Qed.

(** C6, amended: for every job snapshot on screen, the Evaluate Model link
    is rendered if and only if the status of the job is "completed" and its
    [model_path] is a non-empty string (neither [null] nor empty); the link
    leads to the evaluation of that job. *)
Theorem evaluate_link_iff_completed_with_path
    (st : TrainingProgress.state) (j : TrainingProgress.TrainingJob)
    (pg : TrainingProgress.page) :
  TrainingProgress.job st = Some j ->
  TrainingProgress.render st = TrainingProgress.Job pg ->
  (is_Some (TrainingProgress.actions pg) <->
   TrainingProgress.status j = "completed"%string /\
   exists path, TrainingProgress.model_path j = Some path /\ path <> EmptyString) /\
  (forall i, TrainingProgress.actions pg = Some i -> i = TrainingProgress.id j).
Proof.
  intros Hj Hr. rewrite (render_job st j pg Hj Hr).
  unfold TrainingProgress.page_of, TrainingProgress.evaluate_link.
  cbn [TrainingProgress.actions].
  destruct (String.eqb_spec (TrainingProgress.status j) "completed") as [Hs|Hs].
  - destruct (Js.when_truthy (TrainingProgress.model_path j)) as [path|] eqn:Hp.
    + apply when_truthy_Some in Hp. split; [|congruence].
      split; [intros _; split; [exact Hs | exists path; exact Hp] | eauto].
    + apply when_truthy_None in Hp. split; [|discriminate].
      split; [intros [? ?]; discriminate|].
      intros (_ & path & Hpath & Hne).
      destruct Hp as [Hp|Hp]; rewrite Hp in Hpath; congruence.
  - split; [|discriminate].
    split; [intros [? ?]; discriminate | intros [? _]; contradiction].
Qed.

Lemma evaluate_link_iff_completed_with_path_witness :
  TrainingProgress.actions
    (TrainingProgress.page_of (Sample.job "completed" (Some "models/job_3"%string) None))
  = Some 3.
Proof.
  pose proof (evaluate_link_iff_completed_with_path
                (Sample.monitor (Sample.job "completed" (Some "models/job_3"%string) None))
                _ _ eq_refl eq_refl) as [Hiff Hid].
  destruct (proj2 Hiff) as [i Hi].
  - split; [reflexivity|]. eexists. split; [reflexivity | discriminate].
  - rewrite Hi. f_equal. exact (Hid i Hi).
Defined.

(** C7, as stated, fails: a failed job whose [error_message] is the empty
    string carries a non-null message, yet no error block is rendered. *)
Lemma empty_error_message_is_not_rendered :
  TrainingProgress.error_message (Sample.job "failed" None (Some EmptyString)) =
    Some EmptyString /\
  TrainingProgress.error_block
    (TrainingProgress.summary
       (TrainingProgress.page_of (Sample.job "failed" None (Some EmptyString)))) <>
    Some EmptyString.
Proof. split; [reflexivity | discriminate]. Qed.

(** C7, amended: for every job snapshot on screen the status badge shows the
    status of the job (red for "failed"); when [error_message] is a
    non-empty string the error block is rendered with exactly that text, and
    when it is [null] or empty no error block is rendered. *)
Theorem failed_job_shows_status_and_message
    (st : TrainingProgress.state) (j : TrainingProgress.TrainingJob)
    (pg : TrainingProgress.page) :
  TrainingProgress.job st = Some j ->
  TrainingProgress.render st = TrainingProgress.Job pg ->
  snd (TrainingProgress.badge (TrainingProgress.summary pg)) = TrainingProgress.status j /\
  (TrainingProgress.status j = "failed"%string ->
   fst (TrainingProgress.badge (TrainingProgress.summary pg)) = TrainingProgress.red) /\
  (forall message,
      TrainingProgress.error_message j = Some message -> message <> EmptyString ->
      TrainingProgress.error_block (TrainingProgress.summary pg) = Some message) /\
  (TrainingProgress.error_message j = None \/
   TrainingProgress.error_message j = Some EmptyString ->
   TrainingProgress.error_block (TrainingProgress.summary pg) = None).
Proof.
  intros Hj Hr. rewrite (render_job st j pg Hj Hr).
  cbn [TrainingProgress.page_of TrainingProgress.summary TrainingProgress.status_card
         TrainingProgress.badge TrainingProgress.error_block fst snd].
  split; [reflexivity|]. split; [|split].
  - intros ->. reflexivity.
  - intros message Hm Hne. apply when_truthy_Some. auto.
  - intros H. apply when_truthy_None. exact H.
Qed.

Lemma failed_job_shows_status_and_message_witness :
  TrainingProgress.badge
    (TrainingProgress.summary
       (TrainingProgress.page_of
          (Sample.job "failed" None (Some "CUDA out of memory"%string)))) =
    (TrainingProgress.red, "failed"%string) /\
  TrainingProgress.error_block
    (TrainingProgress.summary
       (TrainingProgress.page_of
          (Sample.job "failed" None (Some "CUDA out of memory"%string)))) =
    Some "CUDA out of memory"%string.
Proof.
  pose proof (failed_job_shows_status_and_message
                (Sample.monitor (Sample.job "failed" None (Some "CUDA out of memory"%string)))
                _ _ eq_refl eq_refl) as (Hs & Hc & Hm & _).
  split.
  - apply injective_projections; [exact (Hc eq_refl) | exact Hs].
  - apply Hm; [reflexivity | discriminate].
Defined.

(** ** The cost of one example *)

Lemma render_compare (st : ModelComparison.state) (ev : ModelComparison.Evaluation)
    (table : option (list ModelComparison.row)) (shown_prompt : string)
    (l r : ModelComparison.panel) (nav : ModelComparison.navigation) :
  ModelComparison.evaluation st = Some ev ->
  ModelComparison.render st =
    Some (ModelComparison.Compare table shown_prompt l r nav) ->
  exists ex,
    index_Z (ModelComparison.results st) (ModelComparison.currentIndex st) = Some ex /\
    ModelComparison.results st <> [] /\
    table = ModelComparison.summary <$> ModelComparison.metrics ev /\
    shown_prompt = ModelComparison.prompt ex /\
    l = ModelComparison.base_panel st (ModelComparison.metrics ev) ex /\
    r = ModelComparison.finetuned_panel st (ModelComparison.metrics ev) ex /\
    nav = ModelComparison.navigation_of st.
Proof.
  intros Hev Hr. unfold ModelComparison.render in Hr. rewrite Hev in Hr.
  unfold ModelComparison.results. rewrite Hev. cbn [mbind option_bind].
  destruct (ModelComparison.loading st); [discriminate|].
  destruct (ModelComparison.test_results ev) as [[|e0 rs]|]; try discriminate.
  cbn [default]. unfold id.
  destruct (index_Z (e0 :: rs) (ModelComparison.currentIndex st)) as [ex|];
    [|discriminate].
  injection Hr as <- <- <- <- <-. exists ex. repeat split; discriminate.
Qed.

Lemma append_cons (c : ascii) (a b : string) :
  String.append (String c a) b = String c (String.append a b).
Proof. reflexivity. Qed.

Lemma append_empty_r (s : string) : String.append s EmptyString = s.
Proof.
  induction s as [|c s IH]; [reflexivity|]. rewrite append_cons. congruence.
Qed.


Lemma length_append (a b : string) :
  String.length (String.append a b) = (String.length a + String.length b)%nat.
Proof.
  induction a as [|x a IH]; [reflexivity|]. rewrite append_cons. cbn. congruence.
Qed.












(** ** Navigation keeps the index inside the results *)

Lemma comparing_has_evaluation (st : ModelComparison.state) :
  ModelComparison.comparing st = true ->
  exists ev, ModelComparison.evaluation st = Some ev.
Proof.
  unfold ModelComparison.comparing, ModelComparison.render.
  destruct (ModelComparison.loading st); [discriminate|].
  destruct (ModelComparison.evaluation st) as [ev|]; [eauto | discriminate].
Qed.

Lemma step_keeps_invariant (n evaluationId : Z)
    (accepts : ModelComparison.rate_request -> bool)
    (e : ModelComparison.event) (st : ModelComparison.state) :
  ModelComparison.polls_have n [e] ->
  ModelComparison.index_invariant n st ->
  ModelComparison.index_invariant n (fst (ModelComparison.step evaluationId accepts e st)) /\
  Forall (fun rq => 0 <= ModelComparison.example_index rq < n)
         (snd (ModelComparison.step evaluationId accepts e st)).
Proof.
  intros Hp [Hi Hc]. apply Forall_cons_1 in Hp as [Hp _].
  assert (Hcount : ModelComparison.comparing st = true -> ModelComparison.count st = n).
  { intros Hcmp. destruct (comparing_has_evaluation st Hcmp) as [ev Hev].
    destruct Hc as [Hc|Hc]; congruence. }
  assert (Hsame : ModelComparison.index_invariant n st) by (split; assumption).
  destruct e as [[ev|]| | |p]; cbn [ModelComparison.step].
  - split; [|constructor]. split; [exact Hi|]. right.
    unfold ModelComparison.count, ModelComparison.results. cbn. exact Hp.
  - split; [|constructor]. split; [exact Hi|].
    destruct Hc as [Hc|Hc]; [left | right]; assumption.
  - destruct (ModelComparison.comparing st && _) eqn:Hb; cbn [fst snd];
      (split; [|constructor]); [|exact Hsame].
    split; [cbn; lia | exact Hc].
  - destruct (ModelComparison.comparing st && _) eqn:Hb; cbn [fst snd];
      (split; [|constructor]); [|exact Hsame].
    apply andb_true_iff in Hb as [Hcmp _]. specialize (Hcount Hcmp).
    split; [|right; exact Hcount].
    unfold ModelComparison.next. rewrite Hcount.
    cbn [ModelComparison.setCurrentIndex ModelComparison.currentIndex]. lia.
  - destruct (ModelComparison.comparing st) eqn:Hcmp;
      [|cbn [fst snd]; split; [exact Hsame | constructor]].
    unfold ModelComparison.handleRating.
    destruct (ModelComparison.evaluation st) as [ev|] eqn:Hev;
      [|cbn [fst snd]; split; [exact Hsame | constructor]].
    destruct (accepts _); cbn [fst snd].
    + split; [split; [exact Hi|]|].
      * right. rewrite <- (Hcount eq_refl).
        unfold ModelComparison.count, ModelComparison.results.
        cbn [ModelComparison.evaluation]. rewrite Hev. reflexivity.
      * constructor; [exact Hi | constructor].
    + split; [exact Hsame|]. constructor; [exact Hi | constructor].
Qed.

Lemma run_keeps_invariant (n evaluationId : Z)
    (accepts : ModelComparison.rate_request -> bool)
    (es : list ModelComparison.event) (st : ModelComparison.state) :
  ModelComparison.polls_have n es ->
  ModelComparison.index_invariant n st ->
  ModelComparison.index_invariant n (fst (ModelComparison.run evaluationId accepts es st)) /\
  Forall (fun rq => 0 <= ModelComparison.example_index rq < n)
         (snd (ModelComparison.run evaluationId accepts es st)).
Proof.
  revert st. induction es as [|e es IH]; intros st Hp Hinv.
  - split; [exact Hinv | constructor].
  - apply Forall_cons_1 in Hp as [He Hes].
    destruct (step_keeps_invariant n evaluationId accepts e st) as [H1 H2];
      [constructor; [exact He | constructor] | exact Hinv |].
    cbn [ModelComparison.run].
    destruct (ModelComparison.step evaluationId accepts e st) as [st1 sent1].
    specialize (IH st1 Hes H1).
    destruct (ModelComparison.run evaluationId accepts es st1) as [st2 sent2].
    cbn [fst snd] in *. destruct IH as [IH1 IH2].
    split; [exact IH1|]. apply Forall_app. auto.
Qed.

(** C9: with [n > 0] test results and the index inside [0, n), Previous
    moves to [max(0, i-1)] and Next to [min(n-1, i+1)], both inside [0, n);
    Previous is disabled exactly at [0] and Next exactly at [n-1].  From the
    mounted component on, as long as every poll brings [n] results, every
    rating that is sent carries an [example_index] inside [0, n), so [rate]
    on an evaluation with [n] results never answers RangeError. *)
Theorem index_stays_in_range {R M} (n evaluationId : Z)
    (accepts : ModelComparison.rate_request -> bool)
    (es : list ModelComparison.event) (st : ModelComparison.state)
    (server : Backend.Evaluation R M) :
  0 < n ->
  ModelComparison.count st = n ->
  0 <= ModelComparison.currentIndex st < n ->
  ModelComparison.polls_have n es ->
  Z.of_nat (length (Backend.test_results server)) = n ->
  ModelComparison.currentIndex (ModelComparison.previous st) =
    Z.max 0 (ModelComparison.currentIndex st - 1) /\
  ModelComparison.currentIndex (ModelComparison.next st) =
    Z.min (n - 1) (ModelComparison.currentIndex st + 1) /\
  0 <= ModelComparison.currentIndex (ModelComparison.previous st) < n /\
  0 <= ModelComparison.currentIndex (ModelComparison.next st) < n /\
  (ModelComparison.previous_disabled (ModelComparison.navigation_of st) = true <->
   ModelComparison.currentIndex st = 0) /\
  (ModelComparison.next_disabled (ModelComparison.navigation_of st) = true <->
   ModelComparison.currentIndex st = n - 1) /\
  Forall (fun rq =>
            0 <= ModelComparison.example_index rq < n /\
            Backend.rate server (ModelComparison.example_index rq)
              (ModelComparison.preferred_model rq) <> Err Backend.RangeError)
         (snd (ModelComparison.run evaluationId accepts es ModelComparison.init)).
Proof.
  intros Hn Hc Hi Hp Hs.
  unfold ModelComparison.previous, ModelComparison.next,
    ModelComparison.navigation_of.
  cbn [ModelComparison.setCurrentIndex ModelComparison.currentIndex
         ModelComparison.previous_disabled ModelComparison.next_disabled].
  rewrite Hc.
  split; [reflexivity|]. split; [reflexivity|].
  split; [lia|]. split; [lia|].
  split; [apply Z.eqb_eq|]. split; [apply Z.eqb_eq|].
  destruct (run_keeps_invariant n evaluationId accepts es ModelComparison.init Hp)
    as [_ Hsent].
  { split; [cbn; lia | left; reflexivity]. }
  eapply Forall_impl; [exact Hsent|].
  intros rq Hrq. split; [exact Hrq|].
  rewrite rate_in_range by (rewrite Hs; exact Hrq). discriminate.
Qed.

Lemma index_stays_in_range_witness :
  snd (ModelComparison.run 7 (fun _ => true)
         [ModelComparison.Fetched (Some Sample.evaluation);
          ModelComparison.ClickPrevious; ModelComparison.ClickBetter base;
          ModelComparison.ClickNext; ModelComparison.ClickNext;
          ModelComparison.ClickNext; ModelComparison.ClickBetter finetuned]
         ModelComparison.init)
  = [ {| ModelComparison.evaluation_id := 7; ModelComparison.example_index := 0;
         ModelComparison.preferred_model := base |};
      {| ModelComparison.evaluation_id := 7; ModelComparison.example_index := 2;
         ModelComparison.preferred_model := finetuned |} ] /\
  Forall (fun rq => 0 <= ModelComparison.example_index rq < 3 /\
                    Backend.rate
                      {| Backend.test_results := [1; 2; 3]%nat; Backend.metrics := tt;
                         Backend.preferences := ∅ |}
                      (ModelComparison.example_index rq)
                      (ModelComparison.preferred_model rq) <> Err Backend.RangeError)
    (snd (ModelComparison.run 7 (fun _ => true)
         [ModelComparison.Fetched (Some Sample.evaluation);
          ModelComparison.ClickPrevious; ModelComparison.ClickBetter base;
          ModelComparison.ClickNext; ModelComparison.ClickNext;
          ModelComparison.ClickNext; ModelComparison.ClickBetter finetuned]
         ModelComparison.init)).
Proof.
  split; [reflexivity|].
  apply (index_stays_in_range 3 7 (fun _ => true) _ Sample.state
           {| Backend.test_results := [1; 2; 3]%nat; Backend.metrics := tt;
              Backend.preferences := ∅ |}).
  - lia.
  - reflexivity.
  - cbn. lia.
  - repeat constructor.
  - reflexivity.
Defined.

(** ** Uploading a dataset *)



Section UploadFacts.

Variable JSON_parse : string -> option Json.value.








End UploadFacts.


(** * Further properties of the components *)

(** ** String primitives *)

Lemma substring_all (s : string) : String.substring 0 (String.length s) s = s.
Proof. induction s as [|c s IH]; cbn; congruence. Qed.

Lemma substring_skip (a b : string) (k : nat) :
  String.substring (String.length a) k (String.append a b) = String.substring 0 k b.
Proof.
  induction a as [|x a IH]; [reflexivity|]. rewrite append_cons. cbn. exact IH.
Qed.

Lemma substring_split (s : string) (a b : nat) :
  (a + b)%nat = String.length s ->
  s = String.append (String.substring 0 a s) (String.substring a b s).
Proof.
  revert a b. induction s as [|c s IH]; intros a b Hab.
  - destruct a, b; cbn in *; try lia; reflexivity.
  - destruct a as [|a]; cbn in *.
    + destruct b as [|b]; [lia|]. cbn.
      change (String c s = String c (String.substring 0 b s)). f_equal.
      injection Hab as ->. symmetry. apply substring_all.
    + rewrite append_cons. f_equal. apply IH. lia.
Qed.

Lemma prefix_spec (p s : string) :
  String.prefix p s = true <-> exists rest, s = String.append p rest.
Proof.
  revert s. induction p as [|c p IH]; intros s.
  - split; [intros _; exists s; reflexivity | intros _; destruct s; reflexivity].
  - destruct s as [|d s]; cbn;
      [split; [discriminate | intros [r Hr]; discriminate]|].
    destruct (Ascii.ascii_dec c d) as [->|Hne].
    + rewrite IH. split; intros [r Hr]; exists r; rewrite ?append_cons in *; congruence.
    + split; [discriminate | intros [r Hr]; rewrite append_cons in Hr; congruence].
Qed.

(** X1: [s.endsWith(suffix)] holds exactly when [s] is some string followed
    by [suffix]; this is the test that guards every file the upload
    component accepts. *)
Theorem endsWith_iff_suffix (s suffix : string) :
  Js.endsWith s suffix = true <-> exists before, s = String.append before suffix.
Proof.
  unfold Js.endsWith. rewrite andb_true_iff, Nat.leb_le, String.eqb_eq. split.
  - intros [Hk Hsub].
    exists (String.substring 0 (String.length s - String.length suffix) s).
    pose proof (substring_split s (String.length s - String.length suffix)
                  (String.length suffix)) as Hs.
    rewrite Hsub in Hs. apply Hs. lia.
  - intros [before ->]. rewrite length_append. split; [lia|].
    replace (String.length before + String.length suffix - String.length suffix)%nat
      with (String.length before) by lia.
    rewrite substring_skip. apply substring_all.
Qed.

(** X2: [hay.includes(needle)] holds exactly when [needle] occurs in [hay]
    as a contiguous piece; the evaluation page uses it to recognise the
    "not completed" failure. *)
Theorem includes_iff_occurs (hay needle : string) :
  Js.includes hay needle = true <->
  exists before after, hay = String.append before (String.append needle after).
Proof.
  induction hay as [|c hay IH].
  - cbn [Js.includes]. rewrite orb_false_r, prefix_spec. split.
    + intros [rest Hr]. exists EmptyString, rest. exact Hr.
    + intros ([|d before] & after & H); [exists after; exact H|].
      rewrite append_cons in H. discriminate.
  - cbn [Js.includes]. rewrite orb_true_iff, prefix_spec, IH. split.
    + intros [[rest Hr]|(before & after & Hr)].
      * exists EmptyString, rest. exact Hr.
      * exists (String c before), after. rewrite append_cons. congruence.
    + intros ([|d before] & after & H).
      * left. exists after. exact H.
      * right. rewrite append_cons in H. injection H as _ H. eauto.
Qed.

Lemma string_of_list_ascii_snoc (l : list ascii) (c : ascii) (s : string) :
  String.append (string_of_list_ascii (l ++ [c])) s =
  String.append (string_of_list_ascii l) (String c s).
Proof.
  induction l as [|x l IH]; [reflexivity|].
  cbn [app string_of_list_ascii]. rewrite !append_cons. congruence.
Qed.

Lemma split_go_not_nil (cur : list ascii) (s : string) : Js.split_go cur s <> [].
Proof.
  revert cur. induction s as [|c s IH]; intros cur; cbn; [discriminate|].
  destruct (Ascii.eqb c "010"); [discriminate | apply IH].
Qed.

Lemma join_split_go (cur : list ascii) (s : string) :
  Js.join_newline (Js.split_go cur s) =
  String.append (string_of_list_ascii (rev cur)) s.
Proof.
  revert cur. induction s as [|c s IH]; intros cur; cbn [Js.split_go].
  - cbn. symmetry. apply append_empty_r.
  - destruct (Ascii.eqb_spec c "010") as [->|Hc].
    + cbn [Js.join_newline].
      destruct (Js.split_go [] s) as [|p ps] eqn:Hs;
        [exfalso; exact (split_go_not_nil [] s Hs)|].
      rewrite <- Hs, IH. reflexivity.
    + rewrite IH. cbn [rev]. apply string_of_list_ascii_snoc.
Qed.

(** X3: splitting a text at its line feeds loses nothing: there is always at
    least one piece, no piece contains a line feed, and joining the pieces
    with line feeds gives the text back.  The preview of the upload
    component reads the lines of the file this way. *)
Theorem split_newline_join (text : string) :
  Js.split_newline text <> [] /\
  Js.join_newline (Js.split_newline text) = text /\
  Forall (fun piece => ~ In "010"%char (list_ascii_of_string piece))
         (Js.split_newline text).
Proof.
  split; [apply split_go_not_nil|]. split; [apply join_split_go|].
  unfold Js.split_newline.
  assert (Hgo : forall s cur,
            ~ In "010"%char cur ->
            Forall (fun piece => ~ In "010"%char (list_ascii_of_string piece))
                   (Js.split_go cur s)).
  { induction s as [|c s IH]; intros cur Hcur; cbn [Js.split_go].
    - constructor; [|constructor].
      rewrite list_ascii_of_string_of_list_ascii, <- in_rev. exact Hcur.
    - destruct (Ascii.eqb_spec c "010") as [->|Hc].
      + constructor; [|apply IH; intros []].
        rewrite list_ascii_of_string_of_list_ascii, <- in_rev. exact Hcur.
      + apply IH. intros [Heq|Hin]; [congruence | contradiction]. }
  apply Hgo. intros [].
Qed.

(** ** Printing numbers *)

Lemma length_substring (s : string) (a b : nat) :
  (a + b <= String.length s)%nat -> String.length (String.substring a b s) = b.
Proof.
  revert a b. induction s as [|c s IH]; intros a b Hab.
  - destruct a, b; cbn in *; lia.
  - destruct a as [|a]; cbn in *.
    + destruct b as [|b]; [reflexivity|]. cbn. f_equal. apply (IH 0%nat). lia.
    + apply IH. lia.
Qed.

Lemma length_zeros (k : nat) : String.length (Js.zeros k) = k.
Proof. induction k as [|k IH]; cbn; congruence. Qed.

Lemma toFixed_finite (f : nat) (x : float) (s : bool) (m : positive) (e : Z) :
  Prim2SF x = S754_finite s m e ->
  e < 0 \/ Z.pos m * 2 ^ e < 10 ^ 21 ->
  Js.toFixed f x =
    String.append (if s then "-"%string else EmptyString)
      (Js.fixed_digits f (Js.round_scaled f (Z.pos m) e)).
Proof.
  intros Hx Hsmall. unfold Js.toFixed. rewrite Hx.
  destruct (Z.leb_spec 0 e) as [He|He]; cbn [andb]; [|reflexivity].
  destruct (Z.leb_spec (10 ^ 21) (Z.pos m * 2 ^ e)) as [Hbig|Hbig]; [lia | reflexivity].
Qed.

(** X4: the integer [toFixed(f)] prints for a finite number [m * 2^e] below
    [10^21] is the one nearest to [m * 2^e * 10^f], the larger one on a tie:
    it is exact when the number is an integer multiple of a power of two
    ([e >= 0]) and lies within one half otherwise.  The sign goes in front,
    and the digits are laid out by [fixed_digits]. *)
Theorem toFixed_rounds_to_nearest (f : nat) (x : float) (s : bool) (m : positive) (e : Z) :
  Prim2SF x = S754_finite s m e ->
  e < 0 \/ Z.pos m * 2 ^ e < 10 ^ 21 ->
  let n := Js.round_scaled f (Z.pos m) e in
  Js.toFixed f x =
    String.append (if s then "-"%string else EmptyString) (Js.fixed_digits f n) /\
  (0 <= e -> n = Z.pos m * 2 ^ e * 10 ^ Z.of_nat f) /\
  (e < 0 ->
   2 ^ (- e) * (2 * n - 1) <= 2 * (Z.pos m * 10 ^ Z.of_nat f) < 2 ^ (- e) * (2 * n + 1)).
Proof.
  intros Hx Hsmall n. split; [|split].
  - apply toFixed_finite; assumption.
  - intros He. subst n. unfold Js.round_scaled.
    destruct (Z.leb_spec 0 e); lia.
  - intros He. subst n. unfold Js.round_scaled.
    destruct (Z.leb_spec 0 e); [lia|].
    set (S := Z.pos m * 10 ^ Z.of_nat f).
    replace (1 - e) with (Z.succ (- e)) by lia.
    rewrite Z.pow_succ_r by lia.
    assert (HD : 0 < 2 ^ (- e)) by (apply Z.pow_pos_nonneg; lia).
    set (D := 2 ^ (- e)) in *.
    pose proof (Z.div_mod (2 * S + D) (2 * D) ltac:(lia)) as Hdm.
    pose proof (Z.mod_pos_bound (2 * S + D) (2 * D) ltac:(lia)) as Hmod.
    set (q := (2 * S + D) / (2 * D)) in *. nia.
Qed.

Lemma toFixed_rounds_to_nearest_witness :
  Js.toFixed 2 0.125 = "0.13"%string /\ Js.toFixed 0 2.5 = "3"%string.
Proof.
  destruct (toFixed_rounds_to_nearest 2 0.125 false 4503599627370496 (-55) eq_refl
              (or_introl eq_refl)) as (H1 & _).
  destruct (toFixed_rounds_to_nearest 0 2.5 false 5629499534213120 (-51) eq_refl
              (or_introl eq_refl)) as (H2 & _).
  rewrite H1, H2. split; vm_compute; reflexivity.
Defined.

Lemma fixed_digits_shape (f : nat) (n : Z) :
  exists whole fraction,
    Js.fixed_digits (S f) n = String.append whole (String "." fraction) /\
    (1 <= String.length whole)%nat /\
    String.length fraction = S f.
Proof.
  unfold Js.fixed_digits.
  set (d := Js.digits n).
  set (padded := String.append (Js.zeros (S (S f) - String.length d)) d).
  assert (Hk : (S (S f) <= String.length padded)%nat).
  { subst padded. rewrite length_append, length_zeros. lia. }
  do 2 eexists. split; [reflexivity|]. split.
  - rewrite length_substring; lia.
  - apply length_substring. lia.
Qed.

(** X5: whenever the cost of an example ([rate / 1000000 * tokens], with
    missing values counting as 0) is zero or a finite number below [10^21],
    its cost line is an optional minus sign, at least one digit of whole
    part, a point and exactly four characters after the point. *)
Theorem cost_line_has_four_decimals (rate tokens : option float) :
  let amount := (Js.or_zero rate / 1000000 * Js.or_zero tokens)%float in
  (match Prim2SF amount with
   | S754_zero _ => True
   | S754_finite _ m e => e < 0 \/ Z.pos m * 2 ^ e < 10 ^ 21
   | _ => False
   end) ->
  exists sign whole fraction,
    ModelComparison.cost rate tokens =
      String.append sign (String.append whole (String "." fraction)) /\
    (sign = EmptyString \/ sign = "-"%string) /\
    (1 <= String.length whole)%nat /\
    String.length fraction = 4%nat.
Proof.
  intros amount Hfin. unfold ModelComparison.cost. fold amount.
  destruct (Prim2SF amount) as [z| | |s m e] eqn:Hx; try contradiction.
  - unfold Js.toFixed. rewrite Hx.
    destruct (fixed_digits_shape 3 0) as (whole & fraction & Heq & Hw & Hf).
    exists EmptyString, whole, fraction. rewrite Heq. auto.
  - rewrite (toFixed_finite 4 amount s m e Hx Hfin).
    destruct (fixed_digits_shape 3 (Js.round_scaled 4 (Z.pos m) e))
      as (whole & fraction & Heq & Hw & Hf).
    exists (if s then "-"%string else EmptyString), whole, fraction.
    rewrite Heq. split; [reflexivity|]. split; [destruct s; auto | auto].
Qed.

Lemma cost_line_has_four_decimals_witness :
  exists sign whole fraction,
    ModelComparison.cost (Some 0.5%float) (Some 200%float) =
      String.append sign (String.append whole (String "." fraction)) /\
    (sign = EmptyString \/ sign = "-"%string) /\
    (1 <= String.length whole)%nat /\
    String.length fraction = 4%nat.
Proof.
  apply (cost_line_has_four_decimals (Some 0.5%float) (Some 200%float)).
  vm_compute. left. reflexivity.
Defined.

(** ** The comparison view over time *)

Lemma comparing_index_in_range (st : ModelComparison.state) :
  ModelComparison.comparing st = true ->
  0 <= ModelComparison.currentIndex st < ModelComparison.count st.
Proof.
  intros Hcmp. unfold ModelComparison.comparing in Hcmp.
  destruct (ModelComparison.render st) as [[| |table pr l r nav]|] eqn:Hr;
    try discriminate.
  destruct (comparing_has_evaluation st) as [ev Hev].
  { unfold ModelComparison.comparing. rewrite Hr. reflexivity. }
  destruct (render_compare st ev table pr l r nav Hev Hr) as (ex & Hex & _).
  unfold index_Z in Hex. unfold ModelComparison.count.
  destruct (Z.ltb_spec (ModelComparison.currentIndex st) 0); [discriminate|].
  apply lookup_lt_Some in Hex. lia.
Qed.

Lemma index_within_renders (st : ModelComparison.state) :
  ModelComparison.index_within st -> is_Some (ModelComparison.render st).
Proof.
  intros [H0 Hi]. unfold ModelComparison.render.
  destruct (ModelComparison.loading st); [eauto|].
  unfold ModelComparison.count, ModelComparison.results in Hi.
  destruct (ModelComparison.evaluation st) as [ev|]; [|eauto].
  cbn [mbind option_bind] in Hi.
  destruct (ModelComparison.test_results ev) as [[|e0 rs]|]; eauto.
  cbn [default] in Hi. unfold id in Hi.
  destruct (index_Z (e0 :: rs) (ModelComparison.currentIndex st)) as [ex|] eqn:Hex;
    [eauto|].
  exfalso. unfold index_Z in Hex.
  destruct (Z.ltb_spec (ModelComparison.currentIndex st) 0); [lia|].
  apply lookup_ge_None in Hex. cbn [length] in *. lia.
Qed.

Lemma step_never_shrinks (evaluationId : Z)
    (accepts : ModelComparison.rate_request -> bool)
    (e : ModelComparison.event) (st : ModelComparison.state) (held : nat) :
  Z.of_nat held = ModelComparison.count st ->
  ModelComparison.polls_never_shrink held [e] ->
  ModelComparison.index_within st ->
  let st1 := fst (ModelComparison.step evaluationId accepts e st) in
  ModelComparison.index_within st1 /\
  ModelComparison.count st <= ModelComparison.count st1 /\
  (match e with
   | ModelComparison.Fetched (Some ev) =>
       ModelComparison.count st1 =
       Z.of_nat (length (default [] (ModelComparison.test_results ev)))
   | _ => ModelComparison.count st1 = ModelComparison.count st
   end) /\
  Forall (fun rq => 0 <= ModelComparison.example_index rq < ModelComparison.count st)
         (snd (ModelComparison.step evaluationId accepts e st)).
Proof.
  intros Hheld Hp [H0 Hi] st1. subst st1.
  destruct e as [[ev|]| | |p]; cbn [ModelComparison.step fst snd].
  - destruct Hp as [Hle _].
    assert (Hc : ModelComparison.count (ModelComparison.fetchEvaluation (Some ev) st) =
                 Z.of_nat (length (default [] (ModelComparison.test_results ev)))).
    { reflexivity. }
    split; [split; [exact H0|]|split; [|split; [exact Hc | constructor]]].
    + cbn [ModelComparison.fetchEvaluation ModelComparison.currentIndex].
      destruct Hi as [Hi|Hi]; [left; exact Hi | right].
      rewrite Hc. lia.
    + rewrite Hc. lia.
  - assert (Hc : ModelComparison.count (ModelComparison.fetchEvaluation None st) =
                 ModelComparison.count st) by reflexivity.
    split; [split; [exact H0|]|split; [|split; [exact Hc | constructor]]].
    + rewrite Hc. exact Hi.
    + rewrite Hc. lia.
  - destruct (ModelComparison.comparing st && _) eqn:Hb; cbn [fst snd].
    + apply andb_true_iff in Hb as [Hcmp _].
      pose proof (comparing_index_in_range st Hcmp) as Hr.
      assert (Hc : ModelComparison.count (ModelComparison.previous st) =
                   ModelComparison.count st) by reflexivity.
      split; [split; [cbn; lia|]|split; [|split; [exact Hc | constructor]]].
      * rewrite Hc. cbn. lia.
      * rewrite Hc. lia.
    + split; [split; assumption|]. split; [lia|]. split; [reflexivity | constructor].
  - destruct (ModelComparison.comparing st && _) eqn:Hb; cbn [fst snd].
    + apply andb_true_iff in Hb as [Hcmp _].
      pose proof (comparing_index_in_range st Hcmp) as Hr.
      assert (Hc : ModelComparison.count (ModelComparison.next st) =
                   ModelComparison.count st) by reflexivity.
      split; [split; [cbn; lia|]|split; [|split; [exact Hc | constructor]]].
      * rewrite Hc. cbn. lia.
      * rewrite Hc. lia.
    + split; [split; assumption|]. split; [lia|]. split; [reflexivity | constructor].
  - destruct (ModelComparison.comparing st) eqn:Hcmp; cbn [fst snd];
      [|split; [split; assumption|]; split; [lia|]; split; [reflexivity | constructor]].
    pose proof (comparing_index_in_range st Hcmp) as Hr.
    destruct (handleRating_keeps_evaluation evaluationId p accepts st) as (Hev & Hidx & _).
    assert (Hc : ModelComparison.count
                   (fst (ModelComparison.handleRating evaluationId p accepts st)) =
                 ModelComparison.count st).
    { unfold ModelComparison.count, ModelComparison.results. rewrite Hev. reflexivity. }
    split; [split; rewrite ?Hidx, ?Hc; assumption|].
    split; [rewrite Hc; lia|]. split; [exact Hc|].
    unfold ModelComparison.handleRating.
    destruct (ModelComparison.evaluation st); [|constructor].
    destruct (accepts _); cbn [snd]; (constructor; [exact Hr | constructor]).
Qed.

Lemma run_never_shrinks (evaluationId : Z)
    (accepts : ModelComparison.rate_request -> bool)
    (es : list ModelComparison.event) (st : ModelComparison.state) (held : nat) :
  Z.of_nat held = ModelComparison.count st ->
  ModelComparison.polls_never_shrink held es ->
  ModelComparison.index_within st ->
  ModelComparison.index_within (fst (ModelComparison.run evaluationId accepts es st)) /\
  ModelComparison.count st <=
    ModelComparison.count (fst (ModelComparison.run evaluationId accepts es st)) /\
  Forall (fun rq =>
            0 <= ModelComparison.example_index rq <
            ModelComparison.count (fst (ModelComparison.run evaluationId accepts es st)))
         (snd (ModelComparison.run evaluationId accepts es st)).
Proof.
  revert st held. induction es as [|e es IH]; intros st held Hheld Hp Hinv.
  - cbn. split; [exact Hinv|]. split; [lia | constructor].
  - assert (Hp1 : ModelComparison.polls_never_shrink held [e]).
    { destruct e as [[ev|]| | |p]; cbn in *; tauto. }
    destruct (step_never_shrinks evaluationId accepts e st held Hheld Hp1 Hinv)
      as (H1 & H2 & H3 & H4).
    assert (Hp2 : exists held',
               Z.of_nat held' =
                 ModelComparison.count (fst (ModelComparison.step evaluationId accepts e st)) /\
               ModelComparison.polls_never_shrink held' es).
    { destruct e as [[ev|]| | |p]; cbn [ModelComparison.polls_never_shrink] in Hp.
      - eexists. split; [symmetry; exact H3 | tauto].
      - exists held. split; [congruence | exact Hp].
      - exists held. split; [congruence | exact Hp].
      - exists held. split; [congruence | exact Hp].
      - exists held. split; [congruence | exact Hp]. }
    destruct Hp2 as (held' & Hheld' & Hp').
    cbn [ModelComparison.run].
    destruct (ModelComparison.step evaluationId accepts e st) as [st1 sent1].
    cbn [fst snd] in *.
    specialize (IH st1 held' Hheld' Hp' H1).
    destruct (ModelComparison.run evaluationId accepts es st1) as [st2 sent2].
    cbn [fst snd] in *. destruct IH as (IH1 & IH2 & IH3).
    split; [exact IH1|]. split; [lia|].
    apply Forall_app. split; [|exact IH3].
    eapply Forall_impl; [exact H4|]. cbn beta. intros rq Hrq. lia.
Qed.

(** X6: as long as no poll brings back fewer results than the component
    held before, the view never fails to render, whatever the user clicks,
    and every rating that was sent carries an index inside the results held
    at the end. *)
Theorem growing_results_never_break_the_view (evaluationId : Z)
    (accepts : ModelComparison.rate_request -> bool)
    (es : list ModelComparison.event) :
  ModelComparison.polls_never_shrink 0 es ->
  let '(st, sent) := ModelComparison.run evaluationId accepts es ModelComparison.init in
  is_Some (ModelComparison.render st) /\
  Forall (fun rq => 0 <= ModelComparison.example_index rq < ModelComparison.count st) sent.
Proof.
  intros Hp.
  destruct (run_never_shrinks evaluationId accepts es ModelComparison.init 0
              eq_refl Hp) as (H1 & _ & H3).
  { split; [reflexivity | left; reflexivity]. }
  destruct (ModelComparison.run evaluationId accepts es ModelComparison.init)
    as [st sent].
  split; [apply index_within_renders; exact H1 | exact H3].
Qed.

Lemma growing_results_never_break_the_view_witness :
  is_Some (ModelComparison.render
             (fst (ModelComparison.run 7 (fun _ => true)
                     [ModelComparison.Fetched None;
                      ModelComparison.Fetched (Some Sample.evaluation);
                      ModelComparison.ClickNext; ModelComparison.ClickNext;
                      ModelComparison.Fetched (Some Sample.evaluation)]
                     ModelComparison.init))).
Proof.
  pose proof (growing_results_never_break_the_view 7 (fun _ => true)
                [ModelComparison.Fetched None;
                 ModelComparison.Fetched (Some Sample.evaluation);
                 ModelComparison.ClickNext; ModelComparison.ClickNext;
                 ModelComparison.Fetched (Some Sample.evaluation)]) as H.
  cbn [ModelComparison.polls_never_shrink] in H.
  destruct (ModelComparison.run 7 (fun _ => true) _ ModelComparison.init) as [st sent].
  apply H. repeat split; cbn; lia.
Defined.

(** X7: a poll that brings back a non-empty list of results no longer than
    the current index makes the component fail: [test_results[currentIndex]]
    is [undefined] and reading its prompt throws. *)
Theorem shorter_results_break_the_view
    (st : ModelComparison.state) (ev : ModelComparison.Evaluation)
    (rs : list ModelComparison.TestExample) :
  ModelComparison.test_results ev = Some rs ->
  rs <> [] ->
  Z.of_nat (length rs) <= ModelComparison.currentIndex st ->
  ModelComparison.render (ModelComparison.fetchEvaluation (Some ev) st) = None.
Proof.
  intros Hrs Hne Hlen. unfold ModelComparison.render.
  cbn [ModelComparison.fetchEvaluation ModelComparison.loading
         ModelComparison.evaluation ModelComparison.currentIndex].
  rewrite Hrs. destruct rs as [|e0 rs]; [contradiction|].
  unfold index_Z.
  destruct (Z.ltb_spec (ModelComparison.currentIndex st) 0); [reflexivity|].
  rewrite (proj2 (lookup_ge_None _ _)); [reflexivity | lia].
Qed.

Lemma shorter_results_break_the_view_witness :
  ModelComparison.render
    (fst (ModelComparison.run 7 (fun _ => true)
            [ModelComparison.Fetched (Some Sample.evaluation);
             ModelComparison.ClickNext; ModelComparison.ClickNext;
             ModelComparison.Fetched (Some Sample.short_evaluation)]
            ModelComparison.init)) = None.
Proof.
  apply (shorter_results_break_the_view
           (fst (ModelComparison.run 7 (fun _ => true)
                   [ModelComparison.Fetched (Some Sample.evaluation);
                    ModelComparison.ClickNext; ModelComparison.ClickNext]
                   ModelComparison.init))
           Sample.short_evaluation [Sample.example "1" 120 100] eq_refl).
  - discriminate.
  - vm_compute. discriminate.
Defined.

(** X8: inside a comparison of [n] results, Next followed by Previous comes
    back to the same example unless Next was pressed on the last one, and
    Previous followed by Next comes back unless Previous was pressed on the
    first one; at the last example Next changes nothing and at the first
    Previous changes nothing. *)
Theorem next_and_previous_undo_each_other (st : ModelComparison.state) :
  0 <= ModelComparison.currentIndex st < ModelComparison.count st ->
  let i := ModelComparison.currentIndex st in
  let n := ModelComparison.count st in
  (i < n - 1 ->
   ModelComparison.previous (ModelComparison.next st) = st) /\
  (0 < i ->
   ModelComparison.next (ModelComparison.previous st) = st) /\
  (i = n - 1 -> ModelComparison.next st = st) /\
  (i = 0 -> ModelComparison.previous st = st).
Proof.
  intros Hi i n. subst i n.
  unfold ModelComparison.previous, ModelComparison.next,
    ModelComparison.setCurrentIndex, ModelComparison.count,
    ModelComparison.results in *.
  destruct st as [ev i l r].
  cbn [ModelComparison.evaluation ModelComparison.currentIndex
         ModelComparison.loading ModelComparison.rating] in *.
  repeat split; intros H; f_equal; lia.
Qed.

Lemma next_and_previous_undo_each_other_witness :
  ModelComparison.previous (ModelComparison.next Sample.state) = Sample.state /\
  ModelComparison.next (ModelComparison.previous Sample.state) = Sample.state.
Proof.
  destruct (next_and_previous_undo_each_other Sample.state) as (H1 & H2 & _).
  - vm_compute. split; [discriminate | reflexivity].
  - split; [apply H1 | apply H2]; vm_compute; reflexivity.
Defined.

(** The comparison stays on screen when only the ratings change, and each
    panel is highlighted when the rating of the current example names its
    model. *)
Lemma render_with_ratings (st : ModelComparison.state) (m : gmap Z preferred) :
  ModelComparison.comparing st = true ->
  exists table shown_prompt l r nav,
    ModelComparison.render
      {| ModelComparison.evaluation := ModelComparison.evaluation st;
         ModelComparison.currentIndex := ModelComparison.currentIndex st;
         ModelComparison.loading := ModelComparison.loading st;
         ModelComparison.rating := m |} =
      Some (ModelComparison.Compare table shown_prompt l r nav) /\
    ModelComparison.highlighted l =
      bool_decide (m !! ModelComparison.currentIndex st = Some base) /\
    ModelComparison.highlighted r =
      bool_decide (m !! ModelComparison.currentIndex st = Some finetuned).
Proof.
  intros Hcmp. unfold ModelComparison.comparing in Hcmp.
  unfold ModelComparison.render in *.
  cbn [ModelComparison.loading ModelComparison.evaluation
         ModelComparison.currentIndex].
  destruct (ModelComparison.loading st); [discriminate|].
  destruct (ModelComparison.evaluation st) as [ev|]; [|discriminate].
  destruct (ModelComparison.test_results ev) as [[|e0 rs]|]; try discriminate.
  destruct (index_Z (e0 :: rs) (ModelComparison.currentIndex st)) as [ex|];
    [|discriminate].
  do 5 eexists. split; [reflexivity|]. split; reflexivity.
Qed.

(** X9: a click on "Better" posts one rating for the example on screen and
    by itself changes nothing; the component changes when the answer
    arrives, whatever has happened in between (polls, Previous, Next, other
    ratings).  A rejected rating changes nothing.  An accepted one leaves
    the evaluation, the index and the loading flag as they are by then and
    sets the ratings to those read by the click, with the clicked example
    set to the chosen model: if that example is still on screen, the panel
    of the chosen model is highlighted and the other is not, and the
    ratings of the other examples are those of the time of the click, not
    the current ones.  So of two ratings in flight together on different
    examples the one answered last undoes the other.  When the answer comes
    at once, this is the handler run in one step. *)
Theorem rating_is_written_over_the_ratings_of_the_click (evaluationId : Z)
    (accepts : ModelComparison.rate_request -> bool)
    (p : preferred) (st : ModelComparison.state) :
  ModelComparison.comparing st = true ->
  let rq := {| ModelComparison.evaluation_id := evaluationId;
               ModelComparison.example_index := ModelComparison.currentIndex st;
               ModelComparison.preferred_model := p |} in
  exists f,
    ModelComparison.clickBetter evaluationId p st = Some f /\
    ModelComparison.request f = rq /\
    ModelComparison.captured f = ModelComparison.rating st /\
    ModelComparison.step evaluationId accepts (ModelComparison.ClickBetter p) st =
      (ModelComparison.settle (accepts rq) f st, [rq]) /\
    (forall later, ModelComparison.settle false f later = later) /\
    (forall later,
       let st1 := ModelComparison.settle true f later in
       ModelComparison.evaluation st1 = ModelComparison.evaluation later /\
       ModelComparison.currentIndex st1 = ModelComparison.currentIndex later /\
       ModelComparison.loading st1 = ModelComparison.loading later /\
       ModelComparison.rating st1 !! ModelComparison.currentIndex st = Some p /\
       (forall j, j <> ModelComparison.currentIndex st ->
                  ModelComparison.rating st1 !! j = ModelComparison.rating st !! j) /\
       (ModelComparison.comparing later = true ->
        ModelComparison.currentIndex later = ModelComparison.currentIndex st ->
        exists table shown_prompt l r nav,
          ModelComparison.render st1 =
            Some (ModelComparison.Compare table shown_prompt l r nav) /\
          ModelComparison.highlighted l = bool_decide (p = base) /\
          ModelComparison.highlighted r = bool_decide (p = finetuned))) /\
    (forall q st2 g later,
       ModelComparison.clickBetter evaluationId q st2 = Some g ->
       ModelComparison.rating st2 = ModelComparison.rating st ->
       ModelComparison.currentIndex st2 <> ModelComparison.currentIndex st ->
       ModelComparison.rating
         (ModelComparison.settle true g (ModelComparison.settle true f later))
         !! ModelComparison.currentIndex st =
       ModelComparison.rating st !! ModelComparison.currentIndex st).
Proof.
  intros Hcmp rq.
  destruct (comparing_has_evaluation st Hcmp) as [ev Hev].
  unfold ModelComparison.clickBetter. rewrite Hev. fold rq.
  eexists. split; [reflexivity|]. split; [reflexivity|]. split; [reflexivity|].
  split; [|split; [reflexivity|split]].
  - cbn [ModelComparison.step]. rewrite Hcmp.
    unfold ModelComparison.handleRating, ModelComparison.settle.
    rewrite Hev. fold rq.
    destruct (accepts rq); [|reflexivity].
    reflexivity.
  - intros later. cbv zeta.
    cbn [ModelComparison.settle ModelComparison.evaluation
           ModelComparison.currentIndex ModelComparison.loading
           ModelComparison.rating ModelComparison.request
           ModelComparison.captured ModelComparison.example_index
           ModelComparison.preferred_model rq].
    split; [reflexivity|]. split; [reflexivity|]. split; [reflexivity|].
    split; [apply lookup_insert_eq|].
    split; [intros j Hj; by rewrite lookup_insert_ne|].
    intros Hlater Hsame.
    destruct (render_with_ratings later
                (<[ModelComparison.currentIndex st := p]> (ModelComparison.rating st))
                Hlater) as (table & pr & l & r & nav & Hr & Hl & Hrr).
    exists table, pr, l, r, nav. split; [exact Hr|].
    rewrite Hsame, lookup_insert_eq in Hl, Hrr.
    rewrite Hl, Hrr. split; apply bool_decide_ext; split; congruence.
  - intros q st2 g later Hg Hsame Hother.
    unfold ModelComparison.clickBetter in Hg.
    destruct (ModelComparison.evaluation st2); [|discriminate].
    injection Hg as <-.
    cbn [ModelComparison.settle ModelComparison.rating ModelComparison.request
           ModelComparison.captured ModelComparison.example_index
           ModelComparison.preferred_model].
    rewrite lookup_insert_ne by exact Hother. rewrite Hsame. reflexivity.
Qed.

(** On the sample: "Better" on the fine-tuned panel of example 1 highlights
    it when the answer comes at once; with "Next" and "Better" on the base
    panel clicked before the first answer arrives, example 1 is unrated
    after both answers. *)
Lemma rating_is_written_over_the_ratings_of_the_click_witness :
  (exists table shown_prompt l r nav,
     ModelComparison.render
       (fst (ModelComparison.step 7 (fun _ => true)
               (ModelComparison.ClickBetter finetuned) Sample.state)) =
       Some (ModelComparison.Compare table shown_prompt l r nav) /\
     ModelComparison.highlighted l = false /\
     ModelComparison.highlighted r = true) /\
  (f ← ModelComparison.clickBetter 7 finetuned Sample.state;
   g ← ModelComparison.clickBetter 7 base (ModelComparison.next Sample.state);
   Some (ModelComparison.rating
           (ModelComparison.settle true g
              (ModelComparison.settle true f (ModelComparison.next Sample.state)))
           !! 1)) = Some None.
Proof.
  destruct (rating_is_written_over_the_ratings_of_the_click 7 (fun _ => true)
              finetuned Sample.state eq_refl)
    as (f & Hf & _ & _ & Hstep & _ & Hsettle & Hlost).
  split.
  - rewrite Hstep. cbn [fst].
    destruct (Hsettle Sample.state) as (_ & _ & _ & _ & _ & Hshow).
    destruct (Hshow eq_refl eq_refl) as (table & pr & l & r & nav & Hr & Hl & Hrr).
    exists table, pr, l, r, nav. split; [exact Hr|]. split; [exact Hl | exact Hrr].
  - rewrite Hf. cbn [mbind option_bind].
    destruct (ModelComparison.clickBetter 7 base (ModelComparison.next Sample.state))
      as [g|] eqn:Hg; [|discriminate Hg].
    cbn [mbind option_bind]. f_equal.
    refine (eq_trans (Hlost base (ModelComparison.next Sample.state) g
                        (ModelComparison.next Sample.state) Hg eq_refl _) _);
      [vm_compute; discriminate | reflexivity].
Defined.

Lemma run_app (evaluationId : Z) (accepts : ModelComparison.rate_request -> bool)
    (es1 es2 : list ModelComparison.event) (st : ModelComparison.state) :
  fst (ModelComparison.run evaluationId accepts (es1 ++ es2) st) =
  fst (ModelComparison.run evaluationId accepts es2
         (fst (ModelComparison.run evaluationId accepts es1 st))).
Proof.
  revert st. induction es1 as [|e es1 IH]; intros st; [reflexivity|].
  cbn [app ModelComparison.run].
  destruct (ModelComparison.step evaluationId accepts e st) as [st1 sent1].
  specialize (IH st1).
  destruct (ModelComparison.run evaluationId accepts (es1 ++ es2) st1).
  destruct (ModelComparison.run evaluationId accepts es1 st1).
  cbn [fst] in *. rewrite IH.
  destruct (ModelComparison.run evaluationId accepts es2 s0). reflexivity.
Qed.

(** X10: the component shows "Loading evaluation..." exactly until the
    first poll comes back, whether it succeeds or fails; clicks before that
    do nothing.  A poll never moves the current example and never touches
    the ratings recorded so far, and a failed poll keeps the evaluation that
    was on screen. *)
Theorem loading_until_first_poll (evaluationId : Z)
    (accepts : ModelComparison.rate_request -> bool)
    (es : list ModelComparison.event) (st : ModelComparison.state)
    (answer : option ModelComparison.Evaluation) :
  (ModelComparison.render
     (fst (ModelComparison.run evaluationId accepts es ModelComparison.init)) =
     Some ModelComparison.LoadingView <->
   ModelComparison.polled es = false) /\
  (ModelComparison.polled es = false ->
   ModelComparison.run evaluationId accepts es ModelComparison.init =
     (ModelComparison.init, [])) /\
  ModelComparison.currentIndex (ModelComparison.fetchEvaluation answer st) =
    ModelComparison.currentIndex st /\
  ModelComparison.rating (ModelComparison.fetchEvaluation answer st) =
    ModelComparison.rating st /\
  ModelComparison.evaluation (ModelComparison.fetchEvaluation None st) =
    ModelComparison.evaluation st.
Proof.
  assert (Hquiet : forall es', ModelComparison.polled es' = false ->
            ModelComparison.run evaluationId accepts es' ModelComparison.init =
            (ModelComparison.init, [])).
  { induction es' as [|e es' IH]; intros Hp; [reflexivity|].
    cbn [ModelComparison.polled existsb] in Hp.
    apply orb_false_iff in Hp as [He Hp]. cbn [ModelComparison.run].
    destruct e as [a| | |p]; try discriminate; cbn; rewrite (IH Hp); reflexivity. }
  assert (Hloaded : forall es' st',
            ModelComparison.loading st' = false ->
            ModelComparison.loading
              (fst (ModelComparison.run evaluationId accepts es' st')) = false).
  { induction es' as [|e es' IH]; intros st' Hl; [exact Hl|].
    cbn [ModelComparison.run].
    assert (Hl1 : ModelComparison.loading
                    (fst (ModelComparison.step evaluationId accepts e st')) = false).
    { destruct e as [a| | |p]; cbn [ModelComparison.step].
      - reflexivity.
      - destruct (_ && _); exact Hl.
      - destruct (_ && _); exact Hl.
      - destruct (ModelComparison.comparing st'); [|exact Hl].
        destruct (handleRating_keeps_evaluation evaluationId p accepts st')
          as (_ & _ & Hk). congruence. }
    destruct (ModelComparison.step evaluationId accepts e st') as [st1 sent1].
    specialize (IH st1 Hl1).
    destruct (ModelComparison.run evaluationId accepts es' st1). exact IH. }
  split; [|split; [apply Hquiet | repeat split]].
  split.
  - intros Hr. destruct (ModelComparison.polled es) eqn:Hp; [|reflexivity].
    exfalso. unfold ModelComparison.polled in Hp.
    apply existsb_exists in Hp as (e & Hin & He).
    apply in_split in Hin as (es1 & es2 & ->).
    destruct e as [a| | |p]; try discriminate.
    rewrite run_app in Hr.
    assert (Hl : ModelComparison.loading
              (fst (ModelComparison.run evaluationId accepts
                      (ModelComparison.Fetched a :: es2)
                      (fst (ModelComparison.run evaluationId accepts es1
                              ModelComparison.init)))) = false).
    { cbn [ModelComparison.run ModelComparison.step].
      pose proof (Hloaded es2
                    (ModelComparison.fetchEvaluation a
                       (fst (ModelComparison.run evaluationId accepts es1
                               ModelComparison.init))) eq_refl) as Hl.
      destruct (ModelComparison.run evaluationId accepts es2 _). exact Hl. }
    unfold ModelComparison.render in Hr. rewrite Hl in Hr.
    destruct (ModelComparison.evaluation _) as [ev|]; [|discriminate].
    destruct (ModelComparison.test_results ev) as [[|e0 rs]|]; try discriminate.
    destruct (index_Z _ _); discriminate.
  - intros Hp. rewrite (Hquiet es Hp). reflexivity.
Qed.

(** ** The training monitor over time *)

Lemma polls_job (answers : list (option TrainingProgress.TrainingJob))
    (st : TrainingProgress.state) :
  TrainingProgress.job (TrainingProgress.polls answers st) =
    match TrainingProgress.latest_job answers with
    | Some j => Some j
    | None => TrainingProgress.job st
    end /\
  TrainingProgress.loading (TrainingProgress.polls answers st) =
    match answers with
    | [] => TrainingProgress.loading st
    | _ => false
    end.
Proof.
  revert st. induction answers as [|a rest IH]; intros st; [split; reflexivity|].
  unfold TrainingProgress.polls in *. cbn [fold_left].
  destruct (IH (TrainingProgress.fetchJob a st)) as [IHj IHl].
  rewrite IHj, IHl. unfold TrainingProgress.latest_job in *. split.
  - destruct a as [j|]; cbn [omap list_omap].
    + rewrite last_cons. destruct (last _); reflexivity.
    + destruct (last _); reflexivity.
  - destruct rest; reflexivity.
Qed.

(** X11: the monitor shows "Loading..." until its first poll has come back;
    from then on it shows the job of the latest poll that succeeded, so a
    poll that fails keeps the last snapshot on screen, and it shows
    "Training job not found" as long as no poll has succeeded. *)
Theorem monitor_shows_latest_snapshot
    (answers : list (option TrainingProgress.TrainingJob)) :
  TrainingProgress.render (TrainingProgress.polls answers TrainingProgress.init) =
  match answers with
  | [] => TrainingProgress.LoadingView
  | _ =>
      match TrainingProgress.latest_job answers with
      | Some j => TrainingProgress.Job (TrainingProgress.page_of j)
      | None => TrainingProgress.NotFound
      end
  end.
Proof.
  destruct (polls_job answers TrainingProgress.init) as [Hj Hl].
  unfold TrainingProgress.render. rewrite Hj, Hl.
  destruct answers as [|a rest]; [reflexivity|].
  destruct (TrainingProgress.latest_job (a :: rest)); reflexivity.
Qed.

(** X12: the figures "Current Step / Loss / Epoch" are shown exactly for a
    job whose status is "training" and that has at least one log entry, and
    they are those of the last entry, the loss with four and the epoch with
    two decimals; the loss chart has one point per log entry, in order, and
    is left out exactly when there is no entry (a missing log counts as
    empty); the figures of a running job and the Evaluate Model link never
    appear together. *)
Theorem progress_shows_last_log_entry (j : TrainingProgress.TrainingJob) :
  let pg := TrainingProgress.page_of j in
  (is_Some (TrainingProgress.current (TrainingProgress.summary pg)) <->
   TrainingProgress.status j = "training"%string /\ TrainingProgress.logs j <> []) /\
  (forall p, TrainingProgress.current (TrainingProgress.summary pg) = Some p ->
     exists earlier entry,
       TrainingProgress.logs j = earlier ++ [entry] /\
       TrainingProgress.current_step p = TrainingProgress.step entry /\
       TrainingProgress.current_loss p = Js.toFixed 4 (TrainingProgress.loss entry) /\
       TrainingProgress.current_epoch p = Js.toFixed 2 (TrainingProgress.epoch entry)) /\
  (TrainingProgress.loss_chart pg = None <-> TrainingProgress.logs j = []) /\
  (forall points, TrainingProgress.loss_chart pg = Some points ->
     points = map (fun entry => (TrainingProgress.step entry, TrainingProgress.loss entry))
                  (TrainingProgress.logs j)) /\
  (TrainingProgress.training_logs j = None -> TrainingProgress.logs j = []) /\
  (is_Some (TrainingProgress.actions pg) ->
   TrainingProgress.current (TrainingProgress.summary pg) = None).
Proof.
  intros pg. subst pg.
  cbn [TrainingProgress.page_of TrainingProgress.summary TrainingProgress.status_card
         TrainingProgress.current TrainingProgress.loss_chart TrainingProgress.actions].
  unfold TrainingProgress.progress_block, TrainingProgress.latestLog,
    TrainingProgress.evaluate_link, TrainingProgress.chartData.
  split; [|split; [|split; [|split; [|split]]]].
  - destruct (String.eqb_spec (TrainingProgress.status j) "training") as [Hs|Hs].
    + rewrite fmap_is_Some. split.
      * intros [entry He]. split; [exact Hs|]. intros Hnil. rewrite Hnil in He.
        discriminate.
      * intros [_ Hne]. destruct (TrainingProgress.logs j) as [|e l] using rev_ind;
          [contradiction|]. rewrite last_snoc. eauto.
    + split; [intros [? ?]; discriminate | intros [? _]; contradiction].
  - intros p. destruct (String.eqb (TrainingProgress.status j) "training");
      [|discriminate].
    destruct (TrainingProgress.logs j) as [|e l] using rev_ind; [discriminate|].
    rewrite last_snoc. intros [= <-]. exists l, e. auto.
  - destruct (TrainingProgress.logs j); cbn; split; congruence.
  - intros points. destruct (TrainingProgress.logs j); cbn; congruence.
  - intros Hn. unfold TrainingProgress.logs. rewrite Hn. reflexivity.
  - destruct (String.eqb_spec (TrainingProgress.status j) "completed") as [Hs|Hs];
      [|intros [? ?]; discriminate].
    intros _. rewrite Hs. reflexivity.
Qed.

(** ** The evaluation page over time *)

(** X13: once a start has failed, the evaluation page keeps showing that
    failure: a later start that succeeds stores the id of its evaluation but
    does not clear the error, and the error branch of the view comes first.
    The text of a failure is never empty, so a failure is never shown as
    "No evaluation found".  Without an earlier failure, a successful start
    shows the comparison of the new evaluation, except for an id of 0, which
    is falsy and shows "No evaluation found". *)
Theorem failed_start_stays_on_screen (err : Http.error) (id : Z)
    (st : EvaluationPage.state) :
  (exists message,
      message <> EmptyString /\
      EvaluationPage.render (EvaluationPage.startEvaluation (Err err) st) =
        EvaluationPage.ErrorView message /\
      EvaluationPage.render
        (EvaluationPage.startEvaluation (Ok id)
           (EvaluationPage.startEvaluation (Err err) st)) =
        EvaluationPage.ErrorView message) /\
  EvaluationPage.render (EvaluationPage.startEvaluation (Ok id) EvaluationPage.init) =
    (if id =? 0 then EvaluationPage.NoEvaluation else EvaluationPage.Comparison id).
Proof.
  split; [|reflexivity].
  exists (EvaluationPage.error_message err).
  assert (Hne : Js.truthy_string (EvaluationPage.error_message err) = true).
  { unfold EvaluationPage.error_message. destruct (_ && _); [reflexivity|].
    by apply or_string_truthy. }
  cbn [EvaluationPage.startEvaluation EvaluationPage.error].
  unfold EvaluationPage.render.
  cbn [EvaluationPage.loading EvaluationPage.error].
  destruct (EvaluationPage.error_message err) as [|c m]; [discriminate|].
  split; [discriminate | split; reflexivity].
Qed.

(** ** The datasets page *)

(** X14: after the list has been fetched, the page shows one row per
    dataset, in the order of the server, each with its name and a Delete
    button for its own id; a fetch that fails keeps the list that was
    shown; an empty list shows "No datasets uploaded yet". *)
Theorem datasets_table_lists_every_dataset
    (answer : option (list DatasetsPage.Dataset)) (st : DatasetsPage.state) :
  let st1 := DatasetsPage.fetchDatasets answer st in
  let ds := default (DatasetsPage.datasets st) answer in
  DatasetsPage.datasets st1 = ds /\
  (ds = [] <-> DatasetsPage.body (DatasetsPage.render st1) = DatasetsPage.NoDatasets) /\
  (forall rows,
      DatasetsPage.body (DatasetsPage.render st1) = DatasetsPage.Table rows ->
      length rows = length ds /\
      map DatasetsPage.name_cell rows = map DatasetsPage.name ds /\
      map DatasetsPage.delete_button rows = map DatasetsPage.id ds).
Proof.
  intros st1 ds. subst st1 ds.
  unfold DatasetsPage.render, DatasetsPage.fetchDatasets.
  cbn [DatasetsPage.body DatasetsPage.loading DatasetsPage.datasets].
  split; [reflexivity|].
  destruct (default (DatasetsPage.datasets st) answer) as [|d ds] eqn:Hd.
  - split; [split; reflexivity | discriminate].
  - split; [split; discriminate|].
    intros rows [= <-].
    change (DatasetsPage.row_of d :: map DatasetsPage.row_of ds)
      with (map DatasetsPage.row_of (d :: ds)).
    rewrite length_map, !map_map. auto.
Qed.

(** X15: on a row of the datasets page the Train button is offered exactly
    when the status badge is green, that is for the status "valid"; the
    badge is red exactly for "invalid"; a dataset without status (or with an
    empty one) is labelled "pending" on a gray badge and cannot be
    trained. *)
Theorem train_button_iff_green_badge (d : DatasetsPage.Dataset) :
  let row := DatasetsPage.row_of d in
  (is_Some (DatasetsPage.train_button row) <->
   fst (DatasetsPage.status_badge row) = DatasetsPage.green) /\
  (fst (DatasetsPage.status_badge row) = DatasetsPage.red <->
   DatasetsPage.validation_status d = Some "invalid"%string) /\
  (DatasetsPage.validation_status d = None \/
   DatasetsPage.validation_status d = Some EmptyString ->
   DatasetsPage.status_badge row = (DatasetsPage.gray, "pending"%string) /\
   DatasetsPage.train_button row = None).
Proof.
  intros row. subst row. unfold DatasetsPage.row_of.
  cbn [DatasetsPage.train_button DatasetsPage.status_badge fst].
  split; [|split].
  - case_bool_decide as Hv; [split; eauto|].
    split; [intros [? ?]; discriminate|].
    case_bool_decide; discriminate.
  - case_bool_decide as Hv.
    + rewrite Hv. split; discriminate.
    + case_bool_decide as Hi; split; try discriminate; auto. contradiction.
  - intros [H|H]; rewrite H; split; reflexivity.
Qed.

Lemma train_button_iff_green_badge_witness :
  DatasetsPage.status_badge (DatasetsPage.row_of (Sample.dataset None)) =
    (DatasetsPage.gray, "pending"%string) /\
  DatasetsPage.train_button (DatasetsPage.row_of (Sample.dataset None)) = None.
Proof.
  apply (train_button_iff_green_badge (Sample.dataset None)). left. reflexivity.
Defined.

(** ** The upload component *)

Lemma substring_prefix (n : nat) (s : string) :
  String.length (String.substring 0 n s) = Nat.min n (String.length s) /\
  exists rest, s = String.append (String.substring 0 n s) rest.
Proof.
  revert n. induction s as [|c s IH]; intros n.
  - destruct n; cbn; split; try reflexivity; exists EmptyString; reflexivity.
  - destruct n as [|n]; cbn.
    + split; [reflexivity|]. exists (String c s). reflexivity.
    + destruct (IH n) as [Hl [rest Hr]]. split; [cbn; congruence|].
      exists rest. rewrite append_cons. congruence.
Qed.

(** X16: the upload component renders exactly when every value of its
    preview has a [prompt] and a [completion] that are strings, [null] or
    missing; a parsed line such as [{"prompt": 5}] passes the filter of the
    preview and then makes the component throw.  A text that is shown is the
    beginning of the stored string, at most one hundred characters of it. *)
Theorem preview_renders_iff_fields_are_text (st : DatasetUpload.state) :
  (is_Some (DatasetUpload.render st) <->
   Forall DatasetUpload.previewable (DatasetUpload.preview st)) /\
  (forall s shown,
      DatasetUpload.clipped (Some (Json.Text s)) = Some (Some shown) ->
      String.length shown = Nat.min 100 (String.length s) /\
      exists rest, s = String.append shown rest) /\
  (forall x, Json.truthy (Json.Object [("prompt"%string, Json.Number x)]) = true /\
             ~ DatasetUpload.previewable
                 (Json.Object [("prompt"%string, Json.Number x)])).
Proof.
  split; [|split].
  - unfold DatasetUpload.render.
    destruct (mapM DatasetUpload.preview_item_of (DatasetUpload.preview st))
      as [items|] eqn:Hm.
    + split; [intros _ | intros _; cbn; eauto].
      assert (Hs : is_Some (mapM DatasetUpload.preview_item_of
                              (DatasetUpload.preview st))) by (rewrite Hm; eauto).
      apply mapM_is_Some in Hs. eapply Forall_impl; [exact Hs|].
      intros v [item Hitem]. unfold DatasetUpload.preview_item_of in Hitem.
      unfold DatasetUpload.previewable.
      destruct (DatasetUpload.clipped (Json.get "prompt" v)); [|discriminate].
      destruct (DatasetUpload.clipped (Json.get "completion" v)); [|discriminate].
      split; eauto.
    + split; [intros [? ?]; discriminate|].
      intros Hall. exfalso.
      assert (Hs : is_Some (mapM DatasetUpload.preview_item_of
                              (DatasetUpload.preview st))).
      { apply mapM_is_Some. eapply Forall_impl; [exact Hall|].
        intros v [[p Hp] [c Hc]]. unfold compose, DatasetUpload.preview_item_of.
        rewrite Hp, Hc. cbn. eauto. }
      rewrite Hm in Hs. destruct Hs; discriminate.
  - intros s shown [= <-]. apply substring_prefix.
  - intros x. split; [reflexivity|]. intros [[p Hp] _]. discriminate Hp.
Qed.

Section UploadHandlers.

Variable JSON_parse : string -> option Json.value.

(** X17: dropping a file named [*.jsonl] has exactly the effect of selecting
    it.  In both cases the file replaces the one held and the old validation
    report is discarded; if the file can be read the preview is rebuilt from
    its text and the error is cleared, and if it cannot the error is
    "Error reading file" and the old preview stays. *)
Theorem drop_is_select_for_jsonl (f : DatasetUpload.File) (st : DatasetUpload.state) :
  Js.endsWith (DatasetUpload.name f) ".jsonl" = true ->
  let st1 := DatasetUpload.handleFileSelect JSON_parse (Some f) st in
  DatasetUpload.handleDrop JSON_parse (Some f) st = st1 /\
  DatasetUpload.file st1 = Some f /\
  DatasetUpload.validationReport st1 = None /\
  (forall text, DatasetUpload.content f = Some text ->
     DatasetUpload.preview st1 = DatasetUpload.previewData JSON_parse text /\
     DatasetUpload.error st1 = None) /\
  (DatasetUpload.content f = None ->
   DatasetUpload.preview st1 = DatasetUpload.preview st /\
   DatasetUpload.error st1 = Some "Error reading file"%string).
Proof.
  intros Hn st1. subst st1.
  unfold DatasetUpload.handleDrop, DatasetUpload.handleFileSelect.
  rewrite Hn. cbn [negb].
  destruct (DatasetUpload.content f) as [text|];
    cbn [DatasetUpload.file DatasetUpload.validationReport DatasetUpload.preview
           DatasetUpload.error DatasetUpload.setFile DatasetUpload.uploading];
    (split; [reflexivity|]); (split; [reflexivity|]); (split; [reflexivity|]);
    split; first [discriminate | intros text' [= <-]; split; reflexivity
                 | intros _; split; reflexivity].
Qed.

End UploadHandlers.

Lemma drop_is_select_for_jsonl_witness :
  DatasetUpload.handleDrop Sample.parse_word (Some Sample.notes) DatasetUpload.init =
    DatasetUpload.handleFileSelect Sample.parse_word (Some Sample.notes) DatasetUpload.init /\
  DatasetUpload.preview
    (DatasetUpload.handleDrop Sample.parse_word (Some Sample.notes) DatasetUpload.init) =
    [Json.Text "first"; Json.Text "second"].
Proof.
  destruct (drop_is_select_for_jsonl Sample.parse_word Sample.notes
              DatasetUpload.init eq_refl) as (Hd & _ & _ & Ht & _).
  split; [exact Hd|]. rewrite Hd.
  destruct (Ht _ eq_refl) as [Hp _]. rewrite Hp. reflexivity.
Defined.

(** X18: Upload Dataset posts exactly the file that is held, once, and
    nothing when no file is held.  When the server accepts the file its
    validation report is stored, the error is cleared and the success
    callback runs; when it refuses, the report shown before stays, the
    callback does not run and the error is a non-empty text, which the
    component renders.  In both cases the upload is over afterwards and the
    file and its preview are kept. *)
Theorem upload_posts_the_held_file
    (server : DatasetUpload.File -> result Http.error DatasetUpload.ValidationReport)
    (st : DatasetUpload.state) :
  match DatasetUpload.file st with
  | None => DatasetUpload.handleUpload server st = (st, [], false)
  | Some f =>
      exists st1 called,
        DatasetUpload.handleUpload server st = (st1, [f], called) /\
        DatasetUpload.uploading st1 = false /\
        DatasetUpload.file st1 = Some f /\
        DatasetUpload.preview st1 = DatasetUpload.preview st /\
        match server f with
        | Ok report =>
            called = true /\
            DatasetUpload.validationReport st1 = Some report /\
            DatasetUpload.error st1 = None
        | Err err =>
            called = false /\
            DatasetUpload.validationReport st1 = DatasetUpload.validationReport st /\
            exists message,
              DatasetUpload.error st1 = Some message /\
              message <> EmptyString /\
              Js.when_truthy (DatasetUpload.error st1) = Some message
        end
  end.
Proof.
  unfold DatasetUpload.handleUpload.
  destruct (DatasetUpload.file st) as [f|] eqn:Hf; [|reflexivity].
  destruct (server f) as [report|err]; do 2 eexists;
    (split; [reflexivity|]); cbn; repeat split; try exact Hf.
  destruct (or_string_cases (Http.detail_of err) "Upload failed")
    as [(s & _ & Hne & Hs)|[_ Hs]]; rewrite Hs.
  - exists s. split; [reflexivity|]. split; [exact Hne|].
    destruct s; [contradiction | reflexivity].
  - eexists. split; [reflexivity|]. split; [discriminate | reflexivity].
Qed.

(** X19: the validation results show "Valid" exactly for a valid report;
    the list of issues is left out when there is none and otherwise shows
    the first five issues in their order and no more; every
    recommendation is shown. *)
Theorem report_shows_first_five_issues (r : DatasetUpload.ValidationReport) :
  let v := DatasetUpload.report_view_of r in
  (DatasetUpload.status_label v = "Valid"%string <-> DatasetUpload.valid r = true) /\
  (DatasetUpload.issues_list v = None <-> DatasetUpload.issues r = []) /\
  (forall shown, DatasetUpload.issues_list v = Some shown ->
     shown = take 5 (DatasetUpload.issues r) /\
     (length shown <= 5)%nat /\
     exists hidden, DatasetUpload.issues r = shown ++ hidden) /\
  (DatasetUpload.recommendations_list v = None <-> DatasetUpload.recommendations r = []) /\
  (forall shown, DatasetUpload.recommendations_list v = Some shown ->
     shown = DatasetUpload.recommendations r).
Proof.
  intros v. subst v. unfold DatasetUpload.report_view_of.
  cbn [DatasetUpload.status_label DatasetUpload.issues_list
         DatasetUpload.recommendations_list].
  split; [|split; [|split; [|split]]].
  - destruct (DatasetUpload.valid r); split; try discriminate; reflexivity.
  - destruct (DatasetUpload.issues r); split; try discriminate; reflexivity.
  - intros shown Hs.
    assert (shown = take 5 (DatasetUpload.issues r)) as ->.
    { destruct (DatasetUpload.issues r); [discriminate | congruence]. }
    split; [reflexivity|]. split; [rewrite length_take; lia|].
    exists (drop 5 (DatasetUpload.issues r)). symmetry. apply take_drop.
  - destruct (DatasetUpload.recommendations r); split; try discriminate; reflexivity.
  - intros shown. destruct (DatasetUpload.recommendations r); [discriminate | congruence].
Qed.

(** ** The dashboard *)

Lemma card_of_spec {A B} (line : A -> B) (l : list A) :
  (Dashboard.card_of line l = Dashboard.Nothing <-> l = []) /\
  (forall shown, Dashboard.card_of line l = Dashboard.Lines shown ->
     shown = map line (take 5 l) /\ (1 <= length shown <= 5)%nat /\
     exists hidden, map line l = shown ++ hidden).
Proof.
  unfold Dashboard.card_of. destruct l as [|x l].
  - split; [split; reflexivity | discriminate].
  - split; [split; discriminate|]. intros shown [= <-].
    split; [reflexivity|]. split.
    + change (1 <= length (map line (take 5 (x :: l))) <= 5)%nat.
      rewrite length_map, length_take. cbn [length]. lia.
    + exists (map line (drop 5 (x :: l))).
      change (map line (x :: l) =
              map line (take 5 (x :: l)) ++ map line (drop 5 (x :: l))).
      rewrite <- map_app, take_drop. reflexivity.
Qed.

(** X20: when both requests succeed the dashboard stores the two lists
    they return, and otherwise keeps what it had; a response without a list
    of jobs counts as no job.  Each card says that there is nothing when its list is
    empty and otherwise shows the first five entries of the list, in order:
    between one and five lines. *)
Theorem dashboard_lists_first_five
    (answer : option (list DatasetsPage.Dataset * option (list Dashboard.TrainingJob)))
    (st : Dashboard.state) :
  let st1 := Dashboard.fetchData answer st in
  Dashboard.loading st1 = false /\
  (answer = None ->
   Dashboard.datasets st1 = Dashboard.datasets st /\
   Dashboard.trainingJobs st1 = Dashboard.trainingJobs st) /\
  (forall ds js, answer = Some (ds, Some js) ->
   Dashboard.datasets st1 = ds /\ Dashboard.trainingJobs st1 = js) /\
  (forall ds, answer = Some (ds, None) ->
   Dashboard.datasets st1 = ds /\ Dashboard.trainingJobs st1 = []) /\
  exists datasets_card jobs_card,
    Dashboard.render st1 = Dashboard.Cards datasets_card jobs_card /\
    (datasets_card = Dashboard.Nothing <-> Dashboard.datasets st1 = []) /\
    (jobs_card = Dashboard.Nothing <-> Dashboard.trainingJobs st1 = []) /\
    (forall shown, datasets_card = Dashboard.Lines shown ->
       shown = map Dashboard.dataset_line_of (take 5 (Dashboard.datasets st1)) /\
       (1 <= length shown <= 5)%nat) /\
    (forall shown, jobs_card = Dashboard.Lines shown ->
       shown = map Dashboard.job_line_of (take 5 (Dashboard.trainingJobs st1)) /\
       (1 <= length shown <= 5)%nat).
Proof.
  intros st1.
  assert (Hl : Dashboard.loading st1 = false).
  { subst st1. destruct answer as [[ds js]|]; reflexivity. }
  split; [exact Hl|]. split; [intros ->; split; reflexivity|].
  split; [intros ds js ->; split; reflexivity|].
  split; [intros ds ->; split; reflexivity|].
  unfold Dashboard.render. rewrite Hl. do 2 eexists. split; [reflexivity|].
  destruct (card_of_spec Dashboard.dataset_line_of (Dashboard.datasets st1)) as [Hd1 Hd2].
  destruct (card_of_spec Dashboard.job_line_of (Dashboard.trainingJobs st1)) as [Hj1 Hj2].
  split; [exact Hd1|]. split; [exact Hj1|]. split.
  - intros shown Hs. destruct (Hd2 shown Hs) as (? & ? & _). auto.
  - intros shown Hs. destruct (Hj2 shown Hs) as (? & ? & _). auto.
Qed.

(** ** What the comparison view shows *)

(** X21: whenever the comparison is on screen, everything in it belongs to
    one and the same test result, the one at the current index: the prompt,
    the output and the latency of the base model on the left and of the
    fine-tuned model on the right; the counter reads the index plus one out
    of the number of results, and the summary table is there exactly when
    the evaluation carries metrics. *)
Theorem view_shows_the_current_example
    (st : ModelComparison.state) (ev : ModelComparison.Evaluation)
    (table : option (list ModelComparison.row)) (shown_prompt : string)
    (l r : ModelComparison.panel) (nav : ModelComparison.navigation) :
  ModelComparison.evaluation st = Some ev ->
  ModelComparison.render st =
    Some (ModelComparison.Compare table shown_prompt l r nav) ->
  exists rs ex,
    ModelComparison.test_results ev = Some rs /\
    rs !! Z.to_nat (ModelComparison.currentIndex st) = Some ex /\
    0 <= ModelComparison.currentIndex st < Z.of_nat (length rs) /\
    shown_prompt = ModelComparison.prompt ex /\
    ModelComparison.output l = ModelComparison.base_output ex /\
    ModelComparison.output r = ModelComparison.finetuned_output ex /\
    ModelComparison.latency l = ModelComparison.base_latency_ms ex /\
    ModelComparison.latency r = ModelComparison.finetuned_latency_ms ex /\
    ModelComparison.shown nav = ModelComparison.currentIndex st + 1 /\
    ModelComparison.total nav = Z.of_nat (length rs) /\
    (is_Some table <-> is_Some (ModelComparison.metrics ev)).
Proof.
  intros Hev Hr.
  destruct (render_compare st ev table shown_prompt l r nav Hev Hr)
    as (ex & Hex & Hne & -> & -> & -> & -> & ->).
  unfold ModelComparison.navigation_of, ModelComparison.count.
  unfold ModelComparison.results in *. rewrite Hev in *.
  cbn [mbind option_bind] in *.
  destruct (ModelComparison.test_results ev) as [rs|]; [|contradiction].
  cbn [default] in *. unfold id in *.
  unfold index_Z in Hex.
  destruct (Z.ltb_spec (ModelComparison.currentIndex st) 0); [discriminate|].
  exists rs, ex. split; [reflexivity|]. split; [exact Hex|].
  split; [apply lookup_lt_Some in Hex; lia|].
  repeat split; try reflexivity; rewrite fmap_is_Some; auto.
Qed.

Lemma view_shows_the_current_example_witness :
  exists l r,
    ModelComparison.render Sample.state =
      Some (ModelComparison.Compare
              (Some (ModelComparison.summary Sample.metrics))
              "Summarize note 2" l r
              (ModelComparison.navigation_of Sample.state)) /\
    ModelComparison.output l = "Base summary 2"%string /\
    ModelComparison.output r = "Tuned summary 2"%string.
Proof.
  eexists. eexists. split; [reflexivity|].
  destruct (view_shows_the_current_example Sample.state Sample.evaluation
              _ _ _ _ _ eq_refl eq_refl)
    as (rs & ex & Hrs & Hex & _ & _ & Hl & Hr & _).
  injection Hrs as <-. injection Hex as <-. split; [exact Hl | exact Hr].
Defined.

(** ** The upload panel of the datasets page *)

(** X22: the header button of the datasets page reads "Cancel" exactly while
    the upload panel is open, and pressing it twice brings the page back to
    the state it was in.  When an upload succeeds the panel is closed and
    the table is rebuilt from the list fetched afterwards, or keeps the list
    it had if that fetch fails. *)
Theorem upload_panel_opens_and_closes
    (answer : option (list DatasetsPage.Dataset)) (st : DatasetsPage.state) :
  (DatasetsPage.toggle_label (DatasetsPage.render st) = "Cancel"%string <->
   DatasetsPage.upload_panel (DatasetsPage.render st) = true) /\
  DatasetsPage.upload_panel (DatasetsPage.render (DatasetsPage.toggleUpload st)) =
    negb (DatasetsPage.upload_panel (DatasetsPage.render st)) /\
  DatasetsPage.toggleUpload (DatasetsPage.toggleUpload st) = st /\
  DatasetsPage.upload_panel
    (DatasetsPage.render (DatasetsPage.uploadSucceeded answer st)) = false /\
  DatasetsPage.body (DatasetsPage.render (DatasetsPage.uploadSucceeded answer st)) =
    DatasetsPage.body (DatasetsPage.render (DatasetsPage.fetchDatasets answer st)) /\
  DatasetsPage.datasets (DatasetsPage.uploadSucceeded answer st) =
    default (DatasetsPage.datasets st) answer.
Proof.
  split; [|split; [|split; [|split; [|split]]]]; try reflexivity.
  - cbn. destruct (DatasetsPage.showUpload st); split; try discriminate; reflexivity.
  - destruct st as [ds l [|]]; reflexivity.
Qed.
